(** * Duration prediction: [read_dataframe] and [train]

    A shallow embedding of [Day1/duration_prediction/train.py].

    The script is a linear pipeline over three libraries.  The parts of
    those libraries the script's behaviour rests on are modelled here as
    the libraries document them:

    - a pandas [DataFrame] is an index and an ordered list of named, typed
      columns; column operations are vectorised, as in the script;
    - float64 numbers are the kernel's primitive binary64 floats, so every
      comparison and division below is the IEEE operation the script runs;
    - datetime64 / timedelta64 values are int64 tick counts with the
      [iNaT] sentinel for a missing time;
    - exceptions are values threaded through a state-and-error monad whose
      state holds the log and the file system.

    What the script delegates to numerical or system code (reading the
    parquet source, the least-squares solver, pickling, the textual form of
    a float) is a variable of the section [Script]. *)

From Stdlib Require Import ZArith PrimFloat Ascii.
From Stdlib Require FloatOps FloatAxioms SpecFloat.
From Stdlib Require Uint63.
From stdpp Require Import base option list gmap strings pretty sorting.

(** ** Exceptions, results and the script's monad *)

(** A raised Python exception.  [exn_is_Exception] says whether its class
    derives from [Exception]; [KeyboardInterrupt] and [SystemExit] do not,
    and [except Exception] lets them through. *)
Record exn := Exn {
  exn_is_Exception : bool;
  exn_class : string;
  exn_msg : string
}.

(** [repr] of a Python string: in single quotes, or in double quotes when
    the text holds a single quote and no double quote; the backslash, the
    enclosing quote, newline, carriage return and tab are escaped.  (Other
    control characters, written [\xNN] by Python, do not occur in the
    texts of the script.) *)
Definition squote : ascii := Ascii.ascii_of_nat 39.
Definition dquote : ascii := Ascii.ascii_of_nat 34.
Definition backslash : ascii := Ascii.ascii_of_nat 92.

Fixpoint str_has (c : ascii) (s : string) : bool :=
  match s with
  | EmptyString => false
  | String c' s' => Ascii.eqb c c' || str_has c s'
  end.

Fixpoint str_escape (q : ascii) (s : string) : string :=
  match s with
  | EmptyString => EmptyString
  | String c s' =>
      (if Ascii.eqb c backslash || Ascii.eqb c q then String backslash (String c EmptyString)
       else if Ascii.eqb c (Ascii.ascii_of_nat 10) then String backslash "n"
       else if Ascii.eqb c (Ascii.ascii_of_nat 13) then String backslash "r"
       else if Ascii.eqb c (Ascii.ascii_of_nat 9) then String backslash "t"
       else String c EmptyString) +:+ str_escape q s'
  end.

Definition py_repr_str (s : string) : string :=
  let q := if str_has squote s && negb (str_has dquote s) then dquote else squote in
  String q (str_escape q s +:+ String q EmptyString).

(** [repr] of a list of strings. *)
Definition py_repr_list (l : list string) : string :=
  "[" +:+ String.concat ", " (py_repr_str <$> l) +:+ "]".

Definition AttributeError (msg : string) : exn := Exn true "AttributeError" msg.

(** [KeyError(arg)] with a textual argument.  The text of a [KeyError] is
    the [repr] of its argument, quotes included. *)
Definition KeyError (arg : string) : exn := Exn true "KeyError" (py_repr_str arg).
Definition TypeError (msg : string) : exn := Exn true "TypeError" msg.
Definition ValueError (msg : string) : exn := Exn true "ValueError" msg.
Definition OverflowError (msg : string) : exn := Exn true "OverflowError" msg.

Inductive result (A : Type) : Type :=
| Ok (a : A)
| Raise (e : exn).
Arguments Ok {A} a.
Arguments Raise {A} e.

Definition result_bind {A B} (r : result A) (k : A → result B) : result B :=
  match r with
  | Ok a => k a
  | Raise e => Raise e
  end.

Definition result_map {A B} (f : A → B) (r : result A) : result B :=
  result_bind r (λ a, Ok (f a)).

Fixpoint result_mapM {A B} (f : A → result B) (l : list A) : result (list B) :=
  match l with
  | [] => Ok []
  | x :: l' =>
      result_bind (f x) (λ y, result_bind (result_mapM f l') (λ ys, Ok (y :: ys)))
  end.

Global Instance result_ret : MRet result := λ A a, Ok a.
Global Instance result_mbind : MBind result := λ A B k r, result_bind r k.

Fixpoint result_foldl {A B} (f : A → B → result A) (a : A) (l : list B) : result A :=
  match l with
  | [] => Ok a
  | x :: l' => result_bind (f a x) (λ a', result_foldl f a' l')
  end.

Inductive level := INFO | ERROR.

(** The part of the world the script acts on: the log sink, the requests
    made to data sources, and the files. *)
Record state := State {
  st_log : list (level * string);
  st_reads : list string;
  st_fs : gmap string (list Byte.byte)
}.

Definition M (A : Type) : Type := state → result A * state.

Global Instance M_ret : MRet M := λ A a st, (Ok a, st).
Global Instance M_bind : MBind M := λ A B k m st,
  match m st with
  | (Ok a, st') => k a st'
  | (Raise e, st') => (Raise e, st')
  end.

Definition lift {A} (r : result A) : M A := λ st, (r, st).
Definition raise {A} (e : exn) : M A := lift (Raise e).

(** [try: body except Exception as e: handler e] *)
Definition try_except {A} (body : M A) (handler : exn → M A) : M A := λ st,
  match body st with
  | (Ok a, st') => (Ok a, st')
  | (Raise e, st') =>
      if exn_is_Exception e then handler e st' else (Raise e, st')
  end.

Definition log_line (lvl : level) (msg : string) (st : state) : state :=
  State (st_log st ++ [(lvl, msg)]) (st_reads st) (st_fs st).

Definition logger_info (msg : string) : M unit := λ st, (Ok (), log_line INFO msg st).
Definition logger_error (msg : string) : M unit := λ st, (Ok (), log_line ERROR msg st).

(** ** Numbers and times *)

Definition int64_min : Z := - 2 ^ 63.
Definition int64_max : Z := 2 ^ 63 - 1.
Definition in_int64 (z : Z) : bool := (int64_min <=? z)%Z && (z <=? int64_max)%Z.

(** The missing-time sentinel of datetime64 and timedelta64. *)
Definition iNaT : Z := int64_min.

(** int64 to float64, rounding to nearest even.  The magnitude of every
    int64 but the least fits the 63 bits of the kernel's integers; the
    least, [-2^63], is a float as it stands. *)
Definition float_of_int64 (z : Z) : float :=
  if (z =? int64_min)%Z then PrimFloat.opp 0x1p+63%float
  else if (z <? 0)%Z
  then PrimFloat.opp (PrimFloat.of_uint63 (Uint63.of_Z (- z)))
  else PrimFloat.of_uint63 (Uint63.of_Z z).

Definition float_of_nat (n : nat) : float := float_of_int64 (Z.of_nat n).

(** ** DataFrames *)

(** A boxed cell, as [to_dict] and row access hand it out. *)
Inductive cell :=
| CInt (z : Z)
| CFloat (x : float)
| CStr (s : string)
| CTime (t : Z)
| CDelta (d : Z).

(** A column (a [Series] without its index), by dtype. *)
Inductive column :=
| ColInt (l : list Z)        (* int64 *)
| ColFloat (l : list float)  (* float64 *)
| ColStr (l : list string)   (* object column of str *)
| ColTime (l : list Z)       (* datetime64, ticks since the epoch *)
| ColDelta (l : list Z).     (* timedelta64, ticks *)

Definition col_cells (c : column) : list cell :=
  match c with
  | ColInt l => CInt <$> l
  | ColFloat l => CFloat <$> l
  | ColStr l => CStr <$> l
  | ColTime l => CTime <$> l
  | ColDelta l => CDelta <$> l
  end.

Definition col_len (c : column) : nat := length (col_cells c).

Record DataFrame := Frame {
  df_index : list Z;
  df_columns : list (string * column)
}.

(** [len(df)] *)
Definition df_len (df : DataFrame) : nat := length (df_index df).

Fixpoint assoc_get {A} (name : string) (cols : list (string * A)) : option A :=
  match cols with
  | [] => None
  | (n, c) :: cols' => if decide (n = name) then Some c else assoc_get name cols'
  end.

(** Assignment to a key: replaces the entry in place, or appends a new one. *)
Fixpoint assoc_set {A} (name : string) (c : A) (cols : list (string * A))
  : list (string * A) :=
  match cols with
  | [] => [(name, c)]
  | (n, c') :: cols' =>
      if decide (n = name) then (n, c) :: cols' else (n, c') :: assoc_set name c cols'
  end.

(** [df.name] *)
Definition df_getattr (df : DataFrame) (name : string) : result column :=
  match assoc_get name (df_columns df) with
  | Some c => Ok c
  | None => Raise (AttributeError ("'DataFrame' object has no attribute '" +:+ name +:+ "'"))
  end.

(** [df[name]] *)
Definition df_getitem (df : DataFrame) (name : string) : result column :=
  match assoc_get name (df_columns df) with
  | Some c => Ok c
  | None => Raise (KeyError name)
  end.

(** [df[name] = c] and, for an existing column, [df.name = c] *)
Definition df_setitem (df : DataFrame) (name : string) (c : column) : DataFrame :=
  Frame (df_index df) (assoc_set name c (df_columns df)).

(** The requested names that are no column of the frame, as often as they
    are requested. *)
Definition missing_columns (df : DataFrame) (names : list string) : list string :=
  filter (λ n, assoc_get n (df_columns df) = None) names.

(** [Index.unique()]: the first occurrence of each name, in order. *)
Fixpoint unique_go (seen l : list string) : list string :=
  match l with
  | [] => []
  | x :: l' => if decide (x ∈ seen) then unique_go seen l' else x :: unique_go (x :: seen) l'
  end.

Definition unique (l : list string) : list string := unique_go [] l.

(** [df[names]]: the sub-frame of the listed columns, in the listed order.
    All names are looked up before anything is taken; when some are
    missing the [KeyError] lists them, and when all are it shows the
    requested names as an [Index] of strings (pandas 2). *)
Definition df_getitem_list (df : DataFrame) (names : list string) : result DataFrame :=
  let missing := missing_columns df names in
  if decide (missing = []) then
    result_map (Frame (df_index df))
      (result_mapM (λ n, result_map (pair n) (df_getitem df n)) names)
  else if decide (length missing = length names) then
    Raise (KeyError ("None of [Index(" +:+ py_repr_list names
                     +:+ ", dtype='object')] are in the [columns]"))
  else
    Raise (KeyError (py_repr_list (unique missing) +:+ " not in index")).

(** [df[names] = value]: the columns of [value] are assigned in turn to the
    listed names. *)
Definition df_setitem_list (df : DataFrame) (names : list string) (value : DataFrame)
  : DataFrame :=
  foldl (λ d nc, df_setitem d nc.1 (nc.2).2) df (zip names (df_columns value)).

(** Selection by a boolean mask keeps the positions where the mask holds. *)
Fixpoint filter_mask {A} (mask : list bool) (l : list A) : list A :=
  match mask, l with
  | b :: mask', x :: l' => if b then x :: filter_mask mask' l' else filter_mask mask' l'
  | _, _ => []
  end.

Definition col_filter (mask : list bool) (c : column) : column :=
  match c with
  | ColInt l => ColInt (filter_mask mask l)
  | ColFloat l => ColFloat (filter_mask mask l)
  | ColStr l => ColStr (filter_mask mask l)
  | ColTime l => ColTime (filter_mask mask l)
  | ColDelta l => ColDelta (filter_mask mask l)
  end.

(** [df[mask]] *)
Definition df_filter (df : DataFrame) (mask : list bool) : DataFrame :=
  Frame (filter_mask mask (df_index df))
        (prod_map id (col_filter mask) <$> df_columns df).

(** The rows of a frame: for each position, the index label and the cells
    of that position in column order.  This is the row-wise reading of a
    frame that [to_dict(orient='records')] produces. *)
Abbreviation record := (Z * list (string * cell))%type.

Fixpoint cols_records (n : nat) (cols : list (string * column))
  : list (list (string * cell)) :=
  match cols with
  | [] => replicate n []
  | (name, c) :: cols' =>
      zip_with (λ x r, (name, x) :: r) (col_cells c) (cols_records n cols')
  end.

Definition df_records (df : DataFrame) : list record :=
  zip (df_index df) (cols_records (df_len df) (df_columns df)).

(** Every column is as long as the index. *)
Definition df_aligned (df : DataFrame) : Prop :=
  Forall (λ nc, col_len nc.2 = df_len df) (df_columns df).

(** A frame as a reader hands it out: aligned, with distinct column
    names. *)
Definition df_wf (df : DataFrame) : Prop :=
  NoDup (df_columns df).*1 ∧ df_aligned df.

(** ** Series operations *)

Definition wrap_int64 (z : Z) : Z := ((z - int64_min) `mod` 2 ^ 64 + int64_min)%Z.

(** Difference of two tick counts: missing if either is missing, checked
    for int64 overflow otherwise. *)
Definition ticks_diff (a b : Z) : Z :=
  if decide (a = iNaT ∨ b = iNaT) then iNaT else (a - b)%Z.

Definition sub_ticks (a b : Z) : result Z :=
  if decide (a = iNaT ∨ b = iNaT) then Ok iNaT
  else if in_int64 (a - b) then Ok (a - b)%Z
  else Raise (OverflowError "Overflow in int64 addition").

Definition sub_ticks_list (la lb : list Z) : result (list Z) :=
  result_mapM (λ ab, sub_ticks ab.1 ab.2) (zip la lb).

(** [a - b] on two columns of one frame. *)
Definition series_sub (a b : column) : result column :=
  match a, b with
  | ColTime la, ColTime lb => result_map ColDelta (sub_ticks_list la lb)
  | ColDelta la, ColDelta lb => result_map ColDelta (sub_ticks_list la lb)
  | ColTime la, ColDelta lb => result_map ColTime (sub_ticks_list la lb)
  | ColInt la, ColInt lb => Ok (ColInt (zip_with (λ x y, wrap_int64 (x - y)) la lb))
  | ColFloat la, ColFloat lb => Ok (ColFloat (zip_with PrimFloat.sub la lb))
  | ColInt la, ColFloat lb =>
      Ok (ColFloat (zip_with (λ x y, PrimFloat.sub (float_of_int64 x) y) la lb))
  | ColFloat la, ColInt lb =>
      Ok (ColFloat (zip_with (λ x y, PrimFloat.sub x (float_of_int64 y)) la lb))
  | _, _ => Raise (TypeError "unsupported operand type(s) for -")
  end.

(** [s >= k] and [s <= k] against a number. *)
Definition series_ge (c : column) (k : float) : result (list bool) :=
  match c with
  | ColFloat l => Ok ((λ x, PrimFloat.leb k x) <$> l)
  | ColInt l => Ok ((λ z, PrimFloat.leb k (float_of_int64 z)) <$> l)
  | _ => Raise (TypeError "Invalid comparison")
  end.

Definition series_le (c : column) (k : float) : result (list bool) :=
  match c with
  | ColFloat l => Ok ((λ x, PrimFloat.leb x k) <$> l)
  | ColInt l => Ok ((λ z, PrimFloat.leb (float_of_int64 z) k) <$> l)
  | _ => Raise (TypeError "Invalid comparison")
  end.

(** [m1 & m2] *)
Definition mask_and (m1 m2 : list bool) : list bool := zip_with andb m1 m2.

(** [s / k] on a float64 series. *)
Definition series_truediv (l : list float) (k : float) : list float :=
  (λ x, PrimFloat.div x k) <$> l.

(** [df.to_dict(orient='records')]: one dictionary per row, keyed by column
    name, in column order. *)
Abbreviation feature_dict := (list (string * cell)).

Definition to_dict_records (df : DataFrame) : list feature_dict := (df_records df).*2.

(** ** String formatting *)

Record date := Date { year : Z; month : Z; day : Z }.

(** [format(n, '02d')]: the decimal digits, zero-filled after the sign to a
    width of two. *)
Definition format_02d (n : Z) : string :=
  let sign := if (n <? 0)%Z then "-" else "" in
  let digits := pretty (Z.abs n) in
  sign +:+ String.concat "" (replicate (2 - String.length sign - String.length digits) "0")
       +:+ digits.

Fixpoint split_colon (s : string) : string * option string :=
  match s with
  | "" => ("", None)
  | String c s' =>
      if Ascii.eqb c ":"%char then ("", Some s')
      else let '(name, spec) := split_colon s' in (String c name, spec)
  end.

(** One replacement field [{name}] or [{name:spec}] with an integer
    argument; the specs are those of the script's template. *)
Definition format_field (kwargs : list (string * Z)) (field : string) : result string :=
  let '(name, spec) := split_colon field in
  match assoc_get name kwargs with
  | None => Raise (KeyError name)
  | Some v =>
      match spec with
      | None => Ok (pretty v)
      | Some spec =>
          if decide (spec = "" ∨ spec = "d") then Ok (pretty v)
          else if decide (spec = "02d") then Ok (format_02d v)
          else Raise (ValueError "Invalid format specifier")
      end
  end.

(** [template.format(...)] with keyword arguments; [field] holds the
    replacement field being read, if any. *)
Fixpoint str_format_go (kwargs : list (string * Z)) (field : option string)
    (template : string) : result string :=
  match template with
  | "" =>
      match field with
      | None => Ok ""
      | Some _ => Raise (ValueError "expected '}' before end of string")
      end
  | String c rest =>
      match field with
      | None =>
          if Ascii.eqb c "{"%char then str_format_go kwargs (Some "") rest
          else if Ascii.eqb c "}"%char then
            Raise (ValueError "Single '}' encountered in format string")
          else result_map (String c) (str_format_go kwargs None rest)
      | Some f =>
          if Ascii.eqb c "}"%char then
            result_bind (format_field kwargs f) (λ x,
            result_map (String.append x) (str_format_go kwargs None rest))
          else str_format_go kwargs (Some (f +:+ String c "")) rest
      end
  end.

Definition str_format (template : string) (kwargs : list (string * Z)) : result string :=
  str_format_go kwargs None template.

(** ** The feature vectorizer *)

(** A sparse matrix in compressed-row form: per row, the stored
    (column index, value) entries. *)
Record csr_matrix := Csr {
  csr_shape : nat * nat;
  csr_rows : list (list (nat * float))
}.

(** A [DictVectorizer], before and after fitting. *)
Inductive DictVectorizer :=
| DV_unfitted
| DV_fitted (feature_names_ : list string) (vocabulary_ : gmap string nat).

(** The feature a dictionary item stands for: a string value is one-hot
    ([key=value] with value 1), a number is the value under its key. *)
Definition dv_feature (f : string) (v : cell) : result (string * float) :=
  match v with
  | CStr s => Ok (f +:+ "=" +:+ s, 1%float)
  | CInt z => Ok (f, float_of_int64 z)
  | CFloat x => Ok (f, x)
  | CTime _ | CDelta _ => Raise (TypeError "Unsupported value type")
  end.

(** The accumulators of the vectorizer's loop: vocabulary, feature names in
    order of first appearance, entries of the current row. *)
Definition dv_acc : Type := gmap string nat * list string * list (nat * float).

Definition dv_item (fitting : bool) (acc : dv_acc) (fv : string * cell) : result dv_acc :=
  let '(vocab, names, row) := acc in
  '(name, x) ← dv_feature fv.1 fv.2;
  let '(vocab, names) :=
    if fitting && bool_decide (vocab !! name = None)
    then (<[name := length names]> vocab, names ++ [name])
    else (vocab, names) in
  match vocab !! name with
  | Some j => Ok (vocab, names, row ++ [(j, x)])
  | None => Ok (vocab, names, row)
  end.

Definition dv_dict (fitting : bool)
    (acc : gmap string nat * list string * list (list (nat * float)))
    (x : feature_dict) : result (gmap string nat * list string * list (list (nat * float))) :=
  let '(vocab, names, rows) := acc in
  '(vocab, names, row) ← result_foldl (dv_item fitting) (vocab, names, []) x;
  Ok (vocab, names, rows ++ [row]).

Definition entry_le (a b : nat * float) : Prop := a.1 ≤ b.1.

Global Instance entry_le_dec a b : Decision (entry_le a b).
Proof. unfold entry_le. apply _. Defined.

(** [sort_indices]: the entries of a row in increasing column order. *)
Definition sort_indices (row : list (nat * float)) : list (nat * float) :=
  merge_sort entry_le row.

(** The position of [o] in [map_index]. *)
Definition index_of (map_index : list nat) (o : nat) : option nat :=
  fst <$> list_find (λ k, k = o) map_index.

(** [matrix[:, map_index]] on one row: new column [j] is old column
    [map_index[j]]. *)
Definition permute_row (map_index : list nat) (row : list (nat * float))
  : list (nat * float) :=
  omap (λ e, j ← index_of map_index e.1; Some (j, e.2)) row.

(** [DictVectorizer._transform(X, fitting)], with the default
    [sort=True, sparse=True].  Returns the vectorizer as the call leaves it
    together with the matrix. *)
Definition dv_transform_ (self : DictVectorizer) (X : list feature_dict) (fitting : bool)
  : result (DictVectorizer * csr_matrix) :=
  start ← (if fitting then Ok (∅, [])
            else match self with
                 | DV_fitted names vocab => Ok (vocab, names)
                 | DV_unfitted =>
                     Raise (Exn true "NotFittedError"
                              "This DictVectorizer instance is not fitted yet.")
                 end);
  '(vocab, names, rows) ← result_foldl (dv_dict fitting) (start.1, start.2, []) X;
  if bool_decide (X = []) then Raise (ValueError "Sample sequence X is empty.")
  else
    let shape := (length X, size vocab) in
    if fitting then
      let sorted := merge_sort String.le names in
      let map_index := omap (λ f, vocab !! f) sorted in
      let vocab' := foldl (λ v jf, <[jf.2 := jf.1]> v) vocab (imap pair sorted) in
      Ok (DV_fitted sorted vocab',
          Csr shape (sort_indices ∘ permute_row map_index <$> rows))
    else
      Ok (self, Csr shape (sort_indices <$> rows)).

Definition dv_fit_transform (self : DictVectorizer) (X : list feature_dict)
  : result (DictVectorizer * csr_matrix) := dv_transform_ self X true.

Definition dv_transform (self : DictVectorizer) (X : list feature_dict)
  : result (DictVectorizer * csr_matrix) := dv_transform_ self X false.

(** ** The error metric *)

(** The numeric array behind a target column. *)
Definition to_float_array (c : column) : result (list float) :=
  match c with
  | ColFloat l => Ok l
  | ColInt l => Ok (float_of_int64 <$> l)
  | _ => Raise (ValueError "could not convert to float")
  end.

(** The summation loop of numpy's [add.reduce] over a contiguous float64
    array ([DOUBLE_pairwise_sum]).  Fewer than eight numbers are added
    from left to right.  Up to 128 numbers are added in eight lanes, lane
    [k] taking the numbers at positions [k], [k+8], [k+16], ...; the lanes
    are then added in pairs, and the numbers left over after the last full
    group of eight are added to that, one by one.  A longer array is cut
    in two, the cut at a multiple of eight, and the sums of the halves are
    added. *)
Fixpoint pairwise_block (r0 r1 r2 r3 r4 r5 r6 r7 : float) (l : list float) : float :=
  match l with
  | a0 :: a1 :: a2 :: a3 :: a4 :: a5 :: a6 :: a7 :: l' =>
      pairwise_block (r0 + a0) (r1 + a1) (r2 + a2) (r3 + a3)
                     (r4 + a4) (r5 + a5) (r6 + a6) (r7 + a7) l'
  | _ =>
      foldl PrimFloat.add (((r0 + r1) + (r2 + r3)) + ((r4 + r5) + (r6 + r7))) l
  end%float.

Definition pairwise_leaf (l : list float) : float :=
  match l with
  | a0 :: a1 :: a2 :: a3 :: a4 :: a5 :: a6 :: a7 :: l' =>
      pairwise_block a0 a1 a2 a3 a4 a5 a6 a7 l'
  | _ => foldl PrimFloat.add 0%float l
  end.

Definition PW_BLOCKSIZE : nat := 128.

(** The recursion halves the array, so as many steps as the array is long
    are more than it takes ([pairwise_sum_unfold]). *)
Fixpoint pairwise_sum_go (steps : nat) (l : list float) : float :=
  match steps with
  | S steps' =>
      if decide (length l ≤ PW_BLOCKSIZE) then pairwise_leaf l
      else
        let n2 := length l `div` 2 in
        let n2 := n2 - n2 `mod` 8 in
        (pairwise_sum_go steps' (take n2 l) + pairwise_sum_go steps' (drop n2 l))%float
  | 0 => pairwise_leaf l
  end.

Definition pairwise_sum (l : list float) : float := pairwise_sum_go (length l) l.

(** [np.add.reduce(l)]: the loop's sum, added to the identity of the
    addition that the result starts from. *)
Definition np_sum (l : list float) : float := (0 + pairwise_sum l)%float.

(** [np.average(l)] without weights: the sum over the count. *)
Definition np_average (l : list float) : float :=
  PrimFloat.div (np_sum l) (float_of_nat (length l)).

(** [mean_squared_error(y_true, y_pred, squared=...)] for one output. *)
Definition mean_squared_error (y_true : column) (y_pred : list float) (squared : bool)
  : result float :=
  yt ← to_float_array y_true;
  if bool_decide (length yt ≠ length y_pred) then
    Raise (ValueError "Found input variables with inconsistent numbers of samples")
  else if bool_decide (length yt = 0) then
    Raise (ValueError "Found array with 0 sample(s)")
  else if negb (forallb PrimFloat.is_finite (yt ++ y_pred)) then
    Raise (ValueError "Input contains NaN or infinity")
  else
    let output_errors :=
      np_average (zip_with (λ a b, PrimFloat.mul (PrimFloat.sub a b) (PrimFloat.sub a b))
                           yt y_pred) in
    Ok (if squared then output_errors else PrimFloat.sqrt output_errors).

(** ** Constants of the script *)

Definition base_url : string :=
  "https://d37ci6vzurychx.cloudfront.net/trip-data/green_tripdata_{year}-{month:02d}.parquet".

Definition categorical : list string := ["PULocationID"; "DOLocationID"].
Definition numerical : list string := ["trip_distance"].
Definition target : string := "duration".

(** ** A small world for the examples

    Two monthly sources of a few trips each, at nanosecond resolution, and
    stand-ins for the numerical and system code: a regression that always
    predicts ten minutes, a pickler that writes one byte. *)

Definition demo_pps : Z := 1000000000.

Definition demo_train_frame : DataFrame :=
  Frame [10; 11; 12; 13]%Z
    [("lpep_pickup_datetime", ColTime [0; 0; iNaT; 1000000000]%Z);
     ("lpep_dropoff_datetime",
      ColTime [90000000000; 59999999999; 5; 3601000000000]%Z);
     ("PULocationID", ColInt [7; 2; 3; 4]%Z);
     ("DOLocationID", ColInt [5; 6; 7; 8]%Z);
     ("trip_distance", ColFloat [1.5; 2; 3; 4]%float)].

Definition demo_val_frame : DataFrame :=
  Frame [0; 1]%Z
    [("lpep_pickup_datetime", ColTime [0; 0]%Z);
     ("lpep_dropoff_datetime", ColTime [90000000000; 120000000000]%Z);
     ("PULocationID", ColInt [7; 9]%Z);
     ("DOLocationID", ColInt [5; 9]%Z);
     ("trip_distance", ColFloat [1.5; 2]%float)].

Definition demo_train_url : string :=
  "https://d37ci6vzurychx.cloudfront.net/trip-data/green_tripdata_2021-01.parquet".
Definition demo_val_url : string :=
  "https://d37ci6vzurychx.cloudfront.net/trip-data/green_tripdata_2021-02.parquet".

Definition demo_read_parquet (filename : string) : result DataFrame :=
  if decide (filename = demo_train_url) then Ok demo_train_frame
  else if decide (filename = demo_val_url) then Ok demo_val_frame
  else Raise (Exn true "HTTPError" "HTTP Error 404: Not Found").

Definition demo_repr (c : cell) : string := "<repr>".

Definition demo_lr_fit (X : csr_matrix) (y : column) : result float := Ok 10%float.

Definition demo_lr_predict (lr : float) (X : csr_matrix) : result (list float) :=
  Ok ((λ _, lr) <$> csr_rows X).

Definition demo_open_error (path : string) : option exn := None.

Definition demo_pickle_dump (pipeline : DictVectorizer * option float)
  : list Byte.byte * option exn := ([Byte.x80], None).

Definition demo_state : state := State [] [] ∅.

(** The cleaned training table of the example: the trips of 1.5 and of 60
    minutes survive; the trip one nanosecond short of a minute and the trip
    with a missing pickup time do not. *)
Definition demo_train_clean : DataFrame :=
  Frame [10; 13]%Z
    [("lpep_pickup_datetime", ColTime [0; 1000000000]%Z);
     ("lpep_dropoff_datetime", ColTime [90000000000; 3601000000000]%Z);
     ("PULocationID", ColStr ["7"; "4"]);
     ("DOLocationID", ColStr ["5"; "8"]);
     ("trip_distance", ColFloat [1.5; 4]%float);
     ("duration", ColFloat [1.5; 60]%float)].

(** The feature dictionaries of the two cleaned tables of the example.
    The second validation trip has a pickup and a dropoff location that no
    training trip has. *)
Definition demo_train_dicts : list feature_dict :=
  [[("PULocationID", CStr "7"); ("DOLocationID", CStr "5"); ("trip_distance", CFloat 1.5)];
   [("PULocationID", CStr "4"); ("DOLocationID", CStr "8"); ("trip_distance", CFloat 4)]].

Definition demo_val_dicts : list feature_dict :=
  [[("PULocationID", CStr "7"); ("DOLocationID", CStr "5"); ("trip_distance", CFloat 1.5)];
   [("PULocationID", CStr "9"); ("DOLocationID", CStr "9"); ("trip_distance", CFloat 2)]].

Definition demo_names : list string :=
  ["DOLocationID=5"; "DOLocationID=8"; "PULocationID=4"; "PULocationID=7"; "trip_distance"].

(** Further sources for the examples: a trip of thirty seconds, which the
    filter drops; a table without the distance column; a table whose
    dropoff times are text. *)
Definition demo_short_frame : DataFrame :=
  Frame [0]%Z
    [("lpep_pickup_datetime", ColTime [0]%Z);
     ("lpep_dropoff_datetime", ColTime [30000000000]%Z);
     ("PULocationID", ColInt [7]%Z);
     ("DOLocationID", ColInt [5]%Z);
     ("trip_distance", ColFloat [0.5]%float)].

Definition demo_no_distance_frame : DataFrame :=
  Frame [0]%Z
    [("lpep_pickup_datetime", ColTime [0]%Z);
     ("lpep_dropoff_datetime", ColTime [90000000000]%Z);
     ("PULocationID", ColInt [7]%Z);
     ("DOLocationID", ColInt [5]%Z)].

Definition demo_no_ids_frame : DataFrame :=
  Frame [0]%Z
    [("lpep_pickup_datetime", ColTime [0]%Z);
     ("lpep_dropoff_datetime", ColTime [90000000000]%Z);
     ("DOLocationID", ColInt [5]%Z)].

Definition demo_text_times_frame : DataFrame :=
  Frame [0]%Z
    [("lpep_pickup_datetime", ColTime [0]%Z);
     ("lpep_dropoff_datetime", ColStr ["2021-01-01 00:01:30"]);
     ("PULocationID", ColInt [7]%Z);
     ("DOLocationID", ColInt [5]%Z)].

(** What the loader makes of the thirty-second trip: a table of no rows. *)
Definition demo_short_clean : DataFrame :=
  Frame []
    [("lpep_pickup_datetime", ColTime []);
     ("lpep_dropoff_datetime", ColTime []);
     ("PULocationID", ColStr []);
     ("DOLocationID", ColStr []);
     ("trip_distance", ColFloat []);
     ("duration", ColFloat [])].

(** The example source with the table at one location replaced. *)
Definition demo_read_parquet_with (url : string) (df : DataFrame) (filename : string)
  : result DataFrame :=
  if decide (filename = url) then Ok df else demo_read_parquet filename.

Definition demo_interrupt : exn := Exn false "KeyboardInterrupt" "".

Definition demo_pickling_error : exn :=
  Exn true "PicklingError" "Can't pickle <class 'function'>".

(** A pickler that fails after its first byte. *)
Definition demo_pickle_fails (pipeline : DictVectorizer * option float)
  : list Byte.byte * option exn := ([Byte.x80], Some demo_pickling_error).

Set Default Proof Using "Type".

Section Script.

(** Ticks per second of the datetime resolution of the source
    ([10^9] for [datetime64[ns]], [10^6] for [datetime64[us]]). *)
Variable pps : Z.

(** What reading each location yields.  The source is only read, so this
    is a function of the location. *)
Variable read_parquet : string → result DataFrame.

(** [pd.read_parquet(filename)]: one request to the source. *)
Definition pd_read_parquet (filename : string) : M DataFrame := λ st,
  (read_parquet filename, State (st_log st) (st_reads st ++ [filename]) (st_fs st)).

(** [str] of a float or of a time, as the runtime prints it. *)
Variable py_repr : cell → string.

(** [td.total_seconds()], as pandas 2 computes it: the tick count over the
    ticks per second, both as float64; a missing duration is NaN. *)
Definition total_seconds (d : Z) : float :=
  if decide (d = iNaT) then PrimFloat.nan
  else PrimFloat.div (float_of_int64 d) (float_of_int64 pps).

(** [s.dt.total_seconds()] *)
Definition dt_total_seconds (c : column) : result (list float) :=
  match c with
  | ColDelta l => Ok (total_seconds <$> l)
  | ColTime _ =>
      Raise (AttributeError "'DatetimeProperties' object has no attribute 'total_seconds'")
  | _ => Raise (AttributeError "Can only use .dt accessor with datetimelike values")
  end.

(** [str(x)] of a boxed cell. *)
Definition str_cell (c : cell) : string :=
  match c with
  | CInt z => pretty z
  | CStr s => s
  | _ => py_repr c
  end.

(** [s.astype(str)] and [df.astype(str)] *)
Definition col_astype_str (c : column) : column := ColStr (str_cell <$> col_cells c).

Definition df_astype_str (df : DataFrame) : DataFrame :=
  Frame (df_index df) (prod_map id col_astype_str <$> df_columns df).

Definition read_dataframe (filename : string) : M DataFrame :=
  _ ← logger_info ("loading file: " +:+ filename);
  try_except
    (df ← pd_read_parquet filename;
     dropoff ← lift (df_getattr df "lpep_dropoff_datetime");
     pickup ← lift (df_getattr df "lpep_pickup_datetime");
     delta ← lift (series_sub dropoff pickup);
     let df := df_setitem df "duration" delta in
     duration ← lift (df_getattr df "duration");
     seconds ← lift (dt_total_seconds duration);
     let df := df_setitem df "duration" (ColFloat (series_truediv seconds 60)) in
     duration ← lift (df_getattr df "duration");
     ge ← lift (series_ge duration 1);
     duration ← lift (df_getattr df "duration");
     le ← lift (series_le duration 60);
     let df := df_filter df (mask_and ge le) in
     sub ← lift (df_getitem_list df categorical);
     let df := df_setitem_list df categorical (df_astype_str sub) in
     _ ← logger_info (filename +:+ " had " +:+ pretty (df_len df) +:+ " rows");
     mret df)
    (λ e,
     _ ← logger_error ("error reading: " +:+ filename);
     _ ← logger_error (exn_msg e);
     raise e).

(** ** The trainer *)

(** The fitted state of a [LinearRegression], and its two operations: the
    least-squares solver and the prediction.  Either may refuse its input. *)
Variable lr_model : Type.
Variable lr_fit : csr_matrix → column → result lr_model.
Variable lr_predict : lr_model → csr_matrix → result (list float).

(** A pipeline of a vectorizer and a regression; [None] is the regression
    before fitting. *)
Definition Pipeline : Type := DictVectorizer * option lr_model.

Definition make_pipeline (dv : DictVectorizer) (lr : option lr_model) : Pipeline := (dv, lr).

(** [pipeline.fit(X, y)]: fit and apply the vectorizer, then fit the
    regression on its output.  Returns the pipeline as fitted. *)
Definition pipeline_fit (pipeline : Pipeline) (X : list feature_dict) (y : column)
  : result Pipeline :=
  '(dv, Xt) ← dv_fit_transform pipeline.1 X;
  lr ← lr_fit Xt y;
  Ok (dv, Some lr).

(** [pipeline.predict(X)]: apply the vectorizer, then predict.  Returns the
    pipeline as the call leaves it together with the predictions. *)
Definition pipeline_predict (pipeline : Pipeline) (X : list feature_dict)
  : result (Pipeline * list float) :=
  '(dv, Xt) ← dv_transform pipeline.1 X;
  match pipeline.2 with
  | None =>
      Raise (Exn true "NotFittedError" "This LinearRegression instance is not fitted yet.")
  | Some lr =>
      y_pred ← lr_predict lr Xt;
      Ok ((dv, Some lr), y_pred)
  end.

(** Opening a path for writing may fail, leaving the path as it was. *)
Variable open_error : string → option exn.

(** [pickle.dump]: the bytes written, and the failure that cut the write
    short, if any. *)
Variable pickle_dump : Pipeline → list Byte.byte * option exn.

(** [with open(out_path, 'wb') as f_out: pickle.dump(pipeline, f_out)] *)
Definition open_wb_dump (out_path : string) (pipeline : Pipeline) : M unit := λ st,
  match open_error out_path with
  | Some e => (Raise e, st)
  | None =>
      let st' := State (st_log st) (st_reads st)
                       (<[out_path := (pickle_dump pipeline).1]> (st_fs st)) in
      match (pickle_dump pipeline).2 with
      | Some e => (Raise e, st')
      | None => (Ok (), st')
      end
  end.

Definition train (train_date val_date : date) (out_path : string) : M float :=
  train_url ← lift (str_format base_url
                      [("year", year train_date); ("month", month train_date)]);
  val_url ← lift (str_format base_url
                    [("year", year val_date); ("month", month val_date)]);
  df_train ← read_dataframe train_url;
  df_val ← read_dataframe val_url;
  train_dicts ← lift (result_map to_dict_records
                        (df_getitem_list df_train (categorical ++ numerical)));
  val_dicts ← lift (result_map to_dict_records
                      (df_getitem_list df_val (categorical ++ numerical)));
  y_train ← lift (df_getitem df_train target);
  y_val ← lift (df_getitem df_val target);
  let dv := DV_unfitted in
  let lr := None in
  let pipeline := make_pipeline dv lr in
  pipeline ← lift (pipeline_fit pipeline train_dicts y_train);
  '(pipeline, y_pred) ← lift (pipeline_predict pipeline val_dicts);
  mse ← lift (mean_squared_error y_val y_pred false);
  _ ← logger_info ("mse=" +:+ py_repr (CFloat mse));
  _ ← logger_info ("writing model into " +:+ out_path);
  _ ← open_wb_dump out_path pipeline;
  mret mse.

(** ** Row-wise reading of the loader

    The loader is written column by column.  What it does to one row is
    stated here in the words of its description: the duration of a trip is
    the dropoff time minus the pickup time, in seconds, over 60; a row is
    kept when that lies between 1 and 60; a kept row gains the duration and
    has its two location identifiers turned into text. *)

Definition in_range (d : float) : bool := PrimFloat.leb 1 d && PrimFloat.leb d 60.

Definition cell_ticks (c : option cell) : option Z :=
  match c with
  | Some (CTime t) | Some (CDelta t) => Some t
  | _ => None
  end.

Definition record_duration (r : record) : float :=
  match cell_ticks (assoc_get "lpep_dropoff_datetime" r.2),
        cell_ticks (assoc_get "lpep_pickup_datetime" r.2) with
  | Some a, Some b => PrimFloat.div (total_seconds (ticks_diff a b)) 60
  | _, _ => PrimFloat.nan
  end.

Definition cells_astype_str (name : string) (cells : list (string * cell))
  : list (string * cell) :=
  match assoc_get name cells with
  | Some c => assoc_set name (CStr (str_cell c)) cells
  | None => cells
  end.

Definition clean_record (r : record) : record :=
  (r.1, cells_astype_str "DOLocationID"
          (cells_astype_str "PULocationID"
             (assoc_set "duration" (CFloat (record_duration r)) r.2))).

(** A time that is missing or far from the ends of the int64 range; the
    difference of two such times does not overflow.  At nanosecond
    resolution these are the times between the years 1824 and 2116. *)
Definition time_ok (t : Z) : Prop := t = iNaT ∨ (- 2 ^ 62 ≤ t < 2 ^ 62)%Z.

(** The body of the loader's [try] block after the read, as a function of
    the frame read. *)
Definition process_frame (df : DataFrame) : result DataFrame :=
  dropoff ← df_getattr df "lpep_dropoff_datetime";
  pickup ← df_getattr df "lpep_pickup_datetime";
  delta ← series_sub dropoff pickup;
  let df := df_setitem df "duration" delta in
  duration ← df_getattr df "duration";
  seconds ← dt_total_seconds duration;
  let df := df_setitem df "duration" (ColFloat (series_truediv seconds 60)) in
  duration ← df_getattr df "duration";
  ge ← series_ge duration 1;
  duration ← df_getattr df "duration";
  le ← series_le duration 60;
  let df := df_filter df (mask_and ge le) in
  sub ← df_getitem_list df categorical;
  Ok (df_setitem_list df categorical (df_astype_str sub)).

(** The state after a call of the loader on [filename] that ended with
    [r]. *)
Definition state_after_read (filename : string) (r : result DataFrame) (st : state)
  : state :=
  let st1 := State (st_log st ++ [(INFO, "loading file: " +:+ filename)])
                   (st_reads st ++ [filename]) (st_fs st) in
  match r with
  | Ok df => log_line INFO (filename +:+ " had " +:+ pretty (df_len df) +:+ " rows") st1
  | Raise e =>
      if exn_is_Exception e
      then log_line ERROR (exn_msg e) (log_line ERROR ("error reading: " +:+ filename) st1)
      else st1
  end.

(** ** The trainer, step by step *)

(** The location of the data of a period: the fixed address with the year
    and the two-digit month filled in. *)
Definition url_of (y m : Z) : string :=
  "https://d37ci6vzurychx.cloudfront.net/trip-data/green_tripdata_"
    +:+ pretty y +:+ "-" +:+ format_02d m +:+ ".parquet".

(** The steps of [train] between the two loads and the write, as a
    function of the two cleaned tables. *)
Definition fit_and_score (df_train df_val : DataFrame) : result (Pipeline * float) :=
  train_dicts ← result_map to_dict_records
                  (df_getitem_list df_train (categorical ++ numerical));
  val_dicts ← result_map to_dict_records
                (df_getitem_list df_val (categorical ++ numerical));
  y_train ← df_getitem df_train target;
  y_val ← df_getitem df_val target;
  pipeline ← pipeline_fit (make_pipeline DV_unfitted None) train_dicts y_train;
  '(pipeline, y_pred) ← pipeline_predict pipeline val_dicts;
  mse ← mean_squared_error y_val y_pred false;
  Ok (pipeline, mse).

(** ** What a vectorizer has seen, and what it makes of a row *)

(** The dimension a (field, value) pair of a feature dictionary stands
    for: a textual value has a dimension of its own, named [field=value];
    a number goes to the dimension named after its field.  A time stands
    for none. *)
Definition feature_name (fv : string * cell) : option string :=
  match fv.2 with
  | CStr s => Some (fv.1 +:+ "=" +:+ s)
  | CInt _ | CFloat _ => Some fv.1
  | CTime _ | CDelta _ => None
  end.

(** What the pair puts there: one for a textual value, the number itself
    for a number. *)
Definition feature_value (fv : string * cell) : float :=
  match fv.2 with
  | CInt z => float_of_int64 z
  | CFloat x => x
  | _ => 1%float
  end.

(** The dimensions observed in a list of dictionaries. *)
Definition observed (X : list feature_dict) : list string :=
  omap feature_name (concat X).

(** [vocab] numbers the features [names] by their position. *)
Definition is_vocabulary (names : list string) (vocab : gmap string nat) : Prop :=
  NoDup names ∧ ∀ f j, vocab !! f = Some j ↔ names !! j = Some f.

(** The entries of a dictionary under a vocabulary: one entry per pair
    whose dimension is in the vocabulary, in the order of the pairs; a
    pair whose dimension is not there leaves no entry. *)
Definition dict_entries (vocab : gmap string nat) (x : feature_dict)
  : list (nat * float) :=
  omap (λ fv, f ← feature_name fv; j ← vocab !! f; Some (j, feature_value fv)) x.

(** The dense reading of a stored row with [n] columns: at each column the
    sum of the entries stored there, zero where none is. *)
Definition dense_row (n : nat) (row : list (nat * float)) : list float :=
  (λ j, foldl PrimFloat.add 0%float (snd <$> filter (λ e, e.1 = j) row)) <$> seq 0 n.

(** * Properties *)

(** ** Lists, masks and association lists *)

Lemma filter_mask_fmap {A B} (f : A → B) (mask : list bool) (l : list A) :
  filter_mask mask (f <$> l) = f <$> filter_mask mask l.
Proof.
  revert l. induction mask as [|b mask IH]; intros [|x l]; simpl; try done.
  destruct b; simpl; by rewrite IH.
Qed.

Lemma filter_mask_zip_with {A B C} (f : A → B → C) (mask : list bool)
    (l1 : list A) (l2 : list B) :
  filter_mask mask (zip_with f l1 l2)
  = zip_with f (filter_mask mask l1) (filter_mask mask l2).
Proof.
  revert l1 l2. induction mask as [|b mask IH]; intros [|x l1] [|y l2]; simpl; try done.
  - destruct b; simpl; [done|]. by destruct (filter_mask mask l1).
  - destruct b; simpl; by rewrite IH.
Qed.

Lemma filter_mask_pred {A} (P : A → bool) (l : list A) :
  filter_mask (P <$> l) l = filter (λ x, Is_true (P x)) l.
Proof.
  induction l as [|x l IH]; csimpl; [done|].
  rewrite filter_cons, <-IH. destruct (P x); by case_decide.
Qed.

Lemma filter_mask_replicate {A B} (mask : list bool) (idx : list B) (x : A) :
  filter_mask mask (replicate (length idx) x)
  = replicate (length (filter_mask mask idx)) x.
Proof.
  revert idx. induction mask as [|b mask IH]; intros [|y idx]; simpl; try done.
  destruct b; simpl; by rewrite IH.
Qed.

Lemma filter_mask_length {A B} (mask : list bool) (l1 : list A) (l2 : list B) :
  length l1 = length l2 →
  length (filter_mask mask l1) = length (filter_mask mask l2).
Proof.
  revert l1 l2. induction mask as [|b mask IH]; intros [|x l1] [|y l2] Hlen;
    simplify_eq/=; try done.
  destruct b; simpl; by rewrite (IH l1 l2).
Qed.

Lemma assoc_set_twice {A} (name : string) (c1 c2 : A) (cols : list (string * A)) :
  assoc_set name c2 (assoc_set name c1 cols) = assoc_set name c2 cols.
Proof.
  induction cols as [|[n c] cols IH]; simpl.
  - by rewrite decide_True.
  - case_decide; simpl.
    + by rewrite decide_True.
    + rewrite decide_False by done. by rewrite IH.
Qed.

Lemma assoc_get_set {A} (name name' : string) (c : A) (cols : list (string * A)) :
  assoc_get name' (assoc_set name c cols)
  = if decide (name = name') then Some c else assoc_get name' cols.
Proof.
  induction cols as [|[n c'] cols IH]; simpl.
  - by case_decide.
  - destruct (decide (n = name)) as [->|Hn]; simpl; [by repeat case_decide|].
    rewrite IH. by repeat case_decide; simplify_eq.
Qed.

Lemma assoc_get_fmap {A B} (f : A → B) (name : string) (cols : list (string * A)) :
  assoc_get name (prod_map id f <$> cols) = f <$> assoc_get name cols.
Proof.
  induction cols as [|[n c] cols IH]; csimpl; [done|]. by case_decide.
Qed.

Lemma assoc_set_names {A} (name : string) (c : A) (cols : list (string * A)) :
  is_Some (assoc_get name cols) → (assoc_set name c cols).*1 = cols.*1.
Proof.
  induction cols as [|[n c'] cols IH]; csimpl; intros Hs.
  - by destruct Hs.
  - case_decide; csimpl; [done|]. by rewrite IH.
Qed.

(** ** Rows of a frame under the frame operations *)

Lemma col_cells_filter (mask : list bool) (c : column) :
  col_cells (col_filter mask c) = filter_mask mask (col_cells c).
Proof. destruct c; simpl; by rewrite filter_mask_fmap. Qed.

Lemma cols_records_length (n : nat) (cols : list (string * column)) :
  Forall (λ nc, col_len nc.2 = n) cols → length (cols_records n cols) = n.
Proof.
  induction 1 as [|[name c] cols Hc _ IH]; simpl.
  - by rewrite length_replicate.
  - rewrite length_zip_with, IH. unfold col_len in Hc. simpl in Hc. lia.
Qed.

Lemma cols_records_filter (mask : list bool) (idx : list Z) (cols : list (string * column)) :
  cols_records (length (filter_mask mask idx)) (prod_map id (col_filter mask) <$> cols)
  = filter_mask mask (cols_records (length idx) cols).
Proof.
  induction cols as [|[name c] cols IH]; csimpl.
  - by rewrite filter_mask_replicate.
  - by rewrite IH, col_cells_filter, filter_mask_zip_with.
Qed.

Lemma df_records_filter (df : DataFrame) (mask : list bool) :
  df_records (df_filter df mask) = filter_mask mask (df_records df).
Proof.
  unfold df_records, df_filter, df_len; simpl.
  by rewrite cols_records_filter, <-filter_mask_zip_with.
Qed.

(** ** The loader as a function of the frame read *)

Lemma read_dataframe_eq (filename : string) (st : state) :
  read_dataframe filename st
  = let r := result_bind (read_parquet filename) process_frame in
    (r, state_after_read filename r st).
Proof.
  unfold read_dataframe, process_frame, state_after_read, try_except, pd_read_parquet.
  unfold mbind, M_bind, result_mbind, lift, logger_info, logger_error, raise, lift,
    mret, M_ret, log_line; simpl.
  destruct (read_parquet filename) as [df|e]; simpl; [|by destruct (exn_is_Exception e)].
  repeat (match goal with
          | |- context [result_bind ?r _] =>
              destruct r as [?|e]; simpl; [|by destruct (exn_is_Exception e)]
          end).
  done.
Qed.

Lemma cols_records_assoc_set (n : nat) (name : string) (c : column)
    (cols : list (string * column)) :
  col_len c = n →
  Forall (λ nc, col_len nc.2 = n) cols →
  cols_records n (assoc_set name c cols)
  = zip_with (assoc_set name) (col_cells c) (cols_records n cols).
Proof.
  unfold col_len. intros Hc Hcols.
  induction Hcols as [|[n0 c0] cols Hc0 Hcols IH]; simpl in *.
  - apply list_eq; intros i. rewrite !lookup_zip_with.
    destruct (col_cells c !! i); simpl; [|done].
    by destruct (replicate n [] !! i) eqn:Hr; [apply lookup_replicate in Hr as [-> _]|].
  - pose proof (cols_records_length n cols Hcols) as Hlen.
    case_decide; simpl.
    + apply list_eq; intros i. rewrite !lookup_zip_with.
      destruct (col_cells c !! i) as [x|] eqn:Hx; simpl; [|done].
      apply lookup_lt_Some in Hx.
      destruct (lookup_lt_is_Some_2 (col_cells c0) i) as [x0 ->]; [lia|].
      destruct (lookup_lt_is_Some_2 (cols_records n cols) i) as [r ->]; [lia|].
      simpl. by rewrite decide_True.
    + rewrite IH. apply list_eq; intros i. rewrite !lookup_zip_with.
      destruct (col_cells c0 !! i) as [x0|] eqn:Hx0; simpl.
      * destruct (col_cells c !! i) as [x|]; simpl; [|done].
        destruct (cols_records n cols !! i); simpl; [|done].
        by rewrite decide_False.
      * apply lookup_ge_None in Hx0.
        rewrite (lookup_ge_None_2 (col_cells c) i) by lia. done.
Qed.

Lemma df_records_setitem (df : DataFrame) (name : string) (c : column) :
  col_len c = df_len df →
  df_aligned df →
  df_records (df_setitem df name c)
  = zip_with (λ r x, (r.1, assoc_set name x r.2)) (df_records df) (col_cells c).
Proof.
  intros Hc Hcols. unfold df_records, df_setitem, df_len in *; simpl.
  rewrite cols_records_assoc_set by done.
  pose proof (cols_records_length _ _ Hcols) as Hlen.
  apply list_eq; intros i. rewrite !lookup_zip_with.
  destruct (df_index df !! i); simpl; [|done].
  destruct (col_cells c !! i) as [x|] eqn:Hx; simpl.
  - by destruct (cols_records _ _ !! i).
  - by destruct (cols_records _ _ !! i).
Qed.

(** The cells of a column, read off the rows of the frame. *)
Lemma cols_records_assoc_get (n : nat) (name : string) (c : column)
    (cols : list (string * column)) :
  Forall (λ nc, col_len nc.2 = n) cols →
  assoc_get name cols = Some c →
  assoc_get name <$> cols_records n cols = Some <$> col_cells c.
Proof.
  unfold col_len. intros Hcols.
  induction Hcols as [|[n0 c0] cols Hc0 Hcols IH]; simpl in *; [done|].
  pose proof (cols_records_length n cols Hcols) as Hlen.
  intros Hget. apply list_eq; intros i.
  rewrite !list_lookup_fmap, lookup_zip_with.
  case_decide; [injection Hget as ->|].
  - destruct (col_cells c !! i) as [x|] eqn:Hx; simpl; [|done].
    apply lookup_lt_Some in Hx.
    destruct (lookup_lt_is_Some_2 (cols_records n cols) i) as [r ->]; [lia|].
    simpl. by rewrite decide_True.
  - specialize (IH Hget).
    apply (f_equal (λ l, l !! i)) in IH. rewrite !list_lookup_fmap in IH.
    destruct (col_cells c0 !! i) as [x0|] eqn:Hx0; simpl.
    + destruct (cols_records n cols !! i) as [r|]; simpl in *; [|done].
      by rewrite decide_False.
    + apply lookup_ge_None in Hx0.
      rewrite (lookup_ge_None_2 (cols_records n cols) i) in IH by lia. done.
Qed.

Lemma df_records_assoc_get (df : DataFrame) (name : string) (c : column) :
  df_aligned df →
  assoc_get name (df_columns df) = Some c →
  (λ r : record, assoc_get name r.2) <$> df_records df = Some <$> col_cells c.
Proof.
  intros Hcols Hget. unfold df_records.
  pose proof (cols_records_length _ _ Hcols) as Hlen.
  pose proof (cols_records_assoc_get _ _ _ _ Hcols Hget) as Hrec.
  rewrite <-Hrec.
  trans (assoc_get name <$> (zip (df_index df)
           (cols_records (df_len df) (df_columns df))).*2).
  - by rewrite <-list_fmap_compose.
  - by rewrite snd_zip by (unfold df_len in *; lia).
Qed.

Lemma sub_ticks_list_ok (la lb ld : list Z) :
  sub_ticks_list la lb = Ok ld → ld = zip_with ticks_diff la lb.
Proof.
  unfold sub_ticks_list. revert lb ld.
  induction la as [|a la IH]; intros [|b lb] ld; simpl; try by intros [= <-].
  unfold sub_ticks at 1, ticks_diff at 1. simpl.
  case_decide; simpl.
  - destruct (result_mapM _ _) as [ys|e] eqn:Hys; simpl; [|done].
    intros [= <-]. by rewrite (IH lb ys).
  - destruct (in_int64 (a - b)); simpl; [|done].
    destruct (result_mapM _ _) as [ys|e] eqn:Hys; simpl; [|done].
    intros [= <-]. by rewrite (IH lb ys).
Qed.

Lemma df_setitem_twice (df : DataFrame) (name : string) (c1 c2 : column) :
  df_setitem (df_setitem df name c1) name c2 = df_setitem df name c2.
Proof. unfold df_setitem; simpl. by rewrite assoc_set_twice. Qed.

Lemma mask_and_in_range (l : list float) :
  mask_and ((λ x, PrimFloat.leb 1 x) <$> l) ((λ x, PrimFloat.leb x 60) <$> l)
  = in_range <$> l.
Proof.
  unfold mask_and. rewrite zip_with_fmap_l, zip_with_fmap_r, zip_with_diag. done.
Qed.

(** Selection of a list of columns: it succeeds when every name is a
    column, and then takes the columns in the listed order; every failure
    is a [KeyError], raised when a name is missing. *)
Lemma df_getitem_list_present (df : DataFrame) (names : list string) :
  Forall (λ n, is_Some (assoc_get n (df_columns df))) names →
  df_getitem_list df names
  = result_map (Frame (df_index df))
      (result_mapM (λ n, result_map (pair n) (df_getitem df n)) names).
Proof.
  intros Hall. unfold df_getitem_list. cbv zeta. rewrite decide_True; [done|].
  unfold missing_columns. induction Hall as [|n names [c Hc] _ IH]; [done|].
  rewrite filter_cons, decide_False; [done|]. by rewrite Hc.
Qed.

Lemma df_getitem_list_Ok (df sub : DataFrame) (names : list string) :
  df_getitem_list df names = Ok sub →
  result_map (Frame (df_index df))
    (result_mapM (λ n, result_map (pair n) (df_getitem df n)) names) = Ok sub.
Proof. unfold df_getitem_list. cbv zeta. by repeat case_decide. Qed.

Lemma df_getitem_list_missing (df : DataFrame) (names : list string) (n : string) :
  n ∈ names → assoc_get n (df_columns df) = None →
  ∃ arg, df_getitem_list df names = Raise (KeyError arg).
Proof.
  intros Hn Hnone. unfold df_getitem_list. cbv zeta.
  rewrite decide_False.
  - case_decide; eauto.
  - intros Hnil. assert (n ∈ missing_columns df names) as Hin.
    { unfold missing_columns. by apply list_elem_of_filter. }
    rewrite Hnil in Hin. by apply elem_of_nil in Hin.
Qed.

Lemma process_frame_inv (df out : DataFrame) :
  process_frame df = Ok out →
  ∃ (ctor : list Z → column) (la lb ld : list Z) (c1 c2 : column),
    let mins := (λ d, PrimFloat.div (total_seconds d) 60) <$> ld in
    let df3 := df_filter (df_setitem df "duration" (ColFloat mins)) (in_range <$> mins) in
    (ctor = ColTime ∨ ctor = ColDelta) ∧
    assoc_get "lpep_dropoff_datetime" (df_columns df) = Some (ctor la) ∧
    assoc_get "lpep_pickup_datetime" (df_columns df) = Some (ctor lb) ∧
    sub_ticks_list la lb = Ok ld ∧
    assoc_get "PULocationID" (df_columns df3) = Some c1 ∧
    assoc_get "DOLocationID" (df_columns df3) = Some c2 ∧
    out = df_setitem (df_setitem df3 "PULocationID" (col_astype_str c1))
                     "DOLocationID" (col_astype_str c2).
Proof.
  intros Hp. unfold process_frame, mbind, result_mbind in Hp. cbv zeta in Hp.
  unfold df_getattr at 1 in Hp.
  destruct (assoc_get "lpep_dropoff_datetime" _) as [cd|] eqn:Hcd;
    cbn [result_bind] in Hp; [|done].
  unfold df_getattr at 1 in Hp.
  destruct (assoc_get "lpep_pickup_datetime" _) as [cp|] eqn:Hcp;
    cbn [result_bind] in Hp; [|done].
  destruct (series_sub cd cp) as [delta|] eqn:Hsub; cbn [result_bind] in Hp; [|done].
  unfold df_getattr at 1 in Hp. cbn [df_setitem df_columns] in Hp.
  rewrite assoc_get_set, decide_True in Hp by done. cbn [result_bind] in Hp.
  destruct (dt_total_seconds delta) as [seconds|] eqn:Hsec; cbn [result_bind] in Hp; [|done].
  unfold df_getattr in Hp. cbn [df_setitem df_columns df_index] in Hp.
  rewrite !assoc_set_twice, !assoc_get_set, !decide_True in Hp by done.
  unfold series_ge, series_le in Hp. cbn [result_bind] in Hp.
  rewrite mask_and_in_range in Hp.
  assert (∃ ld, delta = ColDelta ld ∧ seconds = total_seconds <$> ld) as (ld & -> & ->).
  { destruct delta; simplify_eq/=. eauto. }
  unfold series_truediv in Hp. rewrite <-list_fmap_compose in Hp.
  change ((λ x : float, PrimFloat.div x 60) ∘ total_seconds)
    with (λ d, PrimFloat.div (total_seconds d) 60) in Hp.
  rewrite !df_setitem_twice in Hp.
  set (mins := (λ d, PrimFloat.div (total_seconds d) 60) <$> ld) in *.
  set (df3 := df_filter (df_setitem df "duration" (ColFloat mins)) (in_range <$> mins)) in *.
  destruct (df_getitem_list df3 categorical) as [sub|] eqn:Hsel;
    cbn [result_bind] in Hp; [|done].
  apply df_getitem_list_Ok in Hsel.
  unfold categorical, df_getitem, result_map in Hsel.
  cbn [result_mapM result_bind] in Hsel.
  destruct (assoc_get "PULocationID" (df_columns df3)) as [c1|] eqn:Hc1;
    cbn [result_bind] in Hsel; [|done].
  destruct (assoc_get "DOLocationID" (df_columns df3)) as [c2|] eqn:Hc2;
    cbn [result_bind] in Hsel; [|done].
  injection Hsel as <-. injection Hp as <-.
  assert (∃ ctor la lb, (ctor = ColTime ∨ ctor = ColDelta) ∧ cd = ctor la ∧
            cp = ctor lb ∧ sub_ticks_list la lb = Ok ld) as (ctor & la & lb & ? & -> & -> & ?).
  { destruct cd as [l|l|l|l|l], cp as [l'|l'|l'|l'|l']; simplify_eq/=;
      unfold result_map in Hsub;
      destruct (sub_ticks_list l l') eqn:?; simplify_eq/=.
    - exists ColTime; eauto 10.
    - exists ColDelta; eauto 10. }
  exists ctor, la, lb, ld, c1, c2. done.
Qed.

Lemma df_aligned_setitem (df : DataFrame) (name : string) (c : column) :
  col_len c = df_len df → df_aligned df → df_aligned (df_setitem df name c).
Proof.
  unfold df_aligned, df_setitem, df_len; simpl. intros Hc Hcols.
  induction Hcols as [|[n0 c0] cols Hc0 Hcols IH]; simpl.
  - by constructor.
  - case_decide; constructor; done.
Qed.

Lemma df_aligned_filter (df : DataFrame) (mask : list bool) :
  df_aligned df → df_aligned (df_filter df mask).
Proof.
  unfold df_aligned, df_filter, df_len; simpl. intros Hcols.
  apply Forall_fmap. eapply Forall_impl; [done|]. intros [n c] Hc; simpl in *.
  unfold col_len in *. rewrite col_cells_filter. by apply filter_mask_length.
Qed.

Lemma df_records_length (df : DataFrame) :
  df_aligned df → length (df_records df) = df_len df.
Proof.
  intros Hcols. unfold df_records.
  rewrite length_zip_with, (cols_records_length _ _ Hcols). unfold df_len. lia.
Qed.

Lemma df_aligned_get (df : DataFrame) (name : string) (c : column) :
  df_aligned df → assoc_get name (df_columns df) = Some c → col_len c = df_len df.
Proof.
  unfold df_aligned. generalize (df_len df) as n. intros n Hcols.
  induction Hcols as [|[n0 c0] cols Hc0 Hcols IH]; simpl; [done|].
  case_decide; [by intros [= <-]|done].
Qed.

(** Turning a column into text, row by row. *)
Lemma df_records_astype (df : DataFrame) (name : string) (c : column) :
  df_aligned df →
  assoc_get name (df_columns df) = Some c →
  df_records (df_setitem df name (col_astype_str c))
  = (λ r : record, (r.1, cells_astype_str name r.2)) <$> df_records df.
Proof.
  intros Hcols Hget.
  pose proof (df_aligned_get _ _ _ Hcols Hget) as Hc.
  rewrite df_records_setitem; [|by unfold col_len in *; simpl; rewrite !length_fmap|done].
  pose proof (df_records_assoc_get _ _ _ Hcols Hget) as Hcells.
  apply list_eq; intros i.
  apply (f_equal (λ l, l !! i)) in Hcells.
  rewrite !list_lookup_fmap in Hcells.
  rewrite lookup_zip_with, list_lookup_fmap. unfold col_astype_str, col_cells at 1.
  rewrite !list_lookup_fmap.
  destruct (df_records df !! i) as [r|]; simpl in *; [|done].
  destruct (col_cells c !! i) as [x|]; simpl in *; [|done].
  injection Hcells as Hx. unfold cells_astype_str. by rewrite Hx.
Qed.

(** The duration column the loader computes holds, row by row, the
    duration of that row. *)
Lemma durations_of_records (df : DataFrame) (ctor : list Z → column) (la lb : list Z) :
  df_aligned df →
  ctor = ColTime ∨ ctor = ColDelta →
  assoc_get "lpep_dropoff_datetime" (df_columns df) = Some (ctor la) →
  assoc_get "lpep_pickup_datetime" (df_columns df) = Some (ctor lb) →
  record_duration <$> df_records df
  = (λ d, PrimFloat.div (total_seconds d) 60) <$> zip_with ticks_diff la lb.
Proof.
  intros Hcols Hctor Ha Hb.
  pose proof (df_records_assoc_get _ _ _ Hcols Ha) as Hca.
  pose proof (df_records_assoc_get _ _ _ Hcols Hb) as Hcb.
  apply list_eq; intros i.
  apply (f_equal (λ l, l !! i)) in Hca, Hcb.
  rewrite !list_lookup_fmap in Hca, Hcb.
  rewrite !list_lookup_fmap, lookup_zip_with.
  destruct Hctor as [-> | ->]; simpl in Hca, Hcb;
    rewrite list_lookup_fmap in Hca, Hcb;
    (destruct (df_records df !! i) as [r|]; simpl in *;
     [|by destruct (la !! i)]);
    (destruct (la !! i) as [a|]; simpl in *; [|done]);
    (destruct (lb !! i) as [b|]; simpl in *; [|done]);
    injection Hca as Hca; injection Hcb as Hcb;
    unfold record_duration; by rewrite Hca, Hcb.
Qed.

Lemma process_frame_records (df out : DataFrame) :
  df_aligned df →
  process_frame df = Ok out →
  df_aligned out ∧
  df_records out
  = clean_record <$> filter (λ r, Is_true (in_range (record_duration r))) (df_records df).
Proof.
  intros Hcols Hp.
  destruct (process_frame_inv _ _ Hp)
    as (ctor & la & lb & ld & c1 & c2 & Hctor & Ha & Hb & Hsub & Hc1 & Hc2 & ->).
  apply sub_ticks_list_ok in Hsub as ->.
  rewrite <-(durations_of_records df ctor la lb) in * by done.
  set (mins := record_duration <$> df_records df) in *.
  set (df2 := df_setitem df "duration" (ColFloat mins)) in *.
  set (df3 := df_filter df2 (in_range <$> mins)) in *.
  assert (col_len (ColFloat mins) = df_len df) as Hmins.
  { unfold col_len, mins; simpl. by rewrite !length_fmap, df_records_length. }
  assert (df_aligned df2) as Hcols2 by by apply df_aligned_setitem.
  assert (df_aligned df3) as Hcols3 by by apply df_aligned_filter.
  assert (df_records df3
          = (λ r : record, (r.1, assoc_set "duration" (CFloat (record_duration r)) r.2))
              <$> filter (λ r, Is_true (in_range (record_duration r))) (df_records df))
    as Hrec3.
  { unfold df3. rewrite df_records_filter. unfold df2.
    rewrite df_records_setitem by done. cbn [col_cells]. unfold mins.
    rewrite <-list_fmap_compose, !zip_with_fmap_r, zip_with_diag, filter_mask_fmap.
    rewrite (filter_mask_pred (in_range ∘ record_duration)). done. }
  set (df4 := df_setitem df3 "PULocationID" (col_astype_str c1)) in *.
  assert (col_len (col_astype_str c1) = df_len df3) as Hlen1.
  { rewrite <-(df_aligned_get _ _ _ Hcols3 Hc1). unfold col_len; simpl.
    by rewrite !length_fmap. }
  assert (df_aligned df4) as Hcols4 by by apply df_aligned_setitem.
  assert (assoc_get "DOLocationID" (df_columns df4) = Some c2) as Hc2'.
  { unfold df4; simpl. by rewrite assoc_get_set, decide_False. }
  split.
  - apply df_aligned_setitem; [|done].
    rewrite <-(df_aligned_get _ _ _ Hcols4 Hc2'). unfold col_len; simpl.
    by rewrite !length_fmap.
  - rewrite (df_records_astype df4) by done. unfold df4.
    rewrite (df_records_astype df3) by done. rewrite Hrec3.
    rewrite <-!list_fmap_compose. done.
Qed.

Lemma read_dataframe_ok_inv (filename : string) (st st' : state) (out : DataFrame) :
  read_dataframe filename st = (Ok out, st') →
  ∃ df, read_parquet filename = Ok df ∧ process_frame df = Ok out ∧
        st' = state_after_read filename (Ok out) st.
Proof.
  rewrite read_dataframe_eq. simpl.
  destruct (read_parquet filename) as [df|e]; simpl; [|done].
  intros [= Hp <-]. exists df. by rewrite Hp.
Qed.

Lemma assoc_get_astype_ne (name name' : string) (cells : list (string * cell)) :
  name ≠ name' →
  assoc_get name' (cells_astype_str name cells) = assoc_get name' cells.
Proof.
  intros Hne. unfold cells_astype_str.
  destruct (assoc_get name cells); [|done]. by rewrite assoc_get_set, decide_False.
Qed.

Lemma assoc_get_astype_eq (name : string) (cells : list (string * cell)) :
  assoc_get name (cells_astype_str name cells)
  = (λ c, CStr (str_cell c)) <$> assoc_get name cells.
Proof.
  unfold cells_astype_str.
  destruct (assoc_get name cells) eqn:Hc; simpl; [|done].
  by rewrite assoc_get_set, decide_True.
Qed.

Lemma clean_record_duration (r : record) :
  assoc_get "duration" (clean_record r).2 = Some (CFloat (record_duration r)).
Proof.
  unfold clean_record; simpl.
  rewrite !assoc_get_astype_ne by done. by rewrite assoc_get_set, decide_True.
Qed.

Lemma clean_record_other (r : record) (name : string) :
  name ∉ ["duration"; "PULocationID"; "DOLocationID"] →
  assoc_get name (clean_record r).2 = assoc_get name r.2.
Proof.
  intros Hname.
  apply not_elem_of_cons in Hname as [H1 Hname].
  apply not_elem_of_cons in Hname as [H2 Hname].
  apply not_elem_of_cons in Hname as [H3 _].
  unfold clean_record; simpl.
  rewrite !assoc_get_astype_ne by done.
  by rewrite assoc_get_set, decide_False.
Qed.

Lemma clean_record_id (r : record) (name : string) :
  name ∈ categorical →
  assoc_get name (clean_record r).2 = (λ c, CStr (str_cell c)) <$> assoc_get name r.2.
Proof.
  unfold categorical, clean_record.
  intros [-> | ->%list_elem_of_singleton]%elem_of_cons; simpl.
  - rewrite assoc_get_astype_ne by done.
    by rewrite assoc_get_astype_eq, assoc_get_set, decide_False.
  - rewrite assoc_get_astype_eq, assoc_get_astype_ne by done.
    by rewrite assoc_get_set, decide_False.
Qed.

Lemma cells_astype_names (name : string) (cells : list (string * cell)) :
  (cells_astype_str name cells).*1 = cells.*1.
Proof.
  unfold cells_astype_str. destruct (assoc_get name cells) eqn:Hc; [|done].
  apply assoc_set_names. by rewrite Hc.
Qed.

(** ** The loader returns a table for a source of the expected shape *)

Lemma sub_ticks_list_total (la lb : list Z) :
  Forall time_ok la → Forall time_ok lb →
  sub_ticks_list la lb = Ok (zip_with ticks_diff la lb).
Proof.
  unfold sub_ticks_list. intros Ha. revert lb.
  induction Ha as [|a la Hta _ IH]; intros lb Hb; [done|].
  destruct Hb as [|b lb Htb Hb]; [done|]. cbn [zip zip_with result_mapM fst snd].
  rewrite (IH lb Hb). unfold sub_ticks, ticks_diff.
  case_decide as Hnat; [done|].
  assert (in_int64 (a - b) = true) as ->; [|done].
  unfold time_ok, iNaT, in_int64, int64_min, int64_max in *.
  apply andb_true_iff. rewrite !Z.leb_le. lia.
Qed.

Lemma process_frame_total (df : DataFrame) (la lb : list Z) :
  assoc_get "lpep_dropoff_datetime" (df_columns df) = Some (ColTime la) →
  assoc_get "lpep_pickup_datetime" (df_columns df) = Some (ColTime lb) →
  Forall time_ok la → Forall time_ok lb →
  is_Some (assoc_get "PULocationID" (df_columns df)) →
  is_Some (assoc_get "DOLocationID" (df_columns df)) →
  ∃ out, process_frame df = Ok out.
Proof.
  intros Ha Hb Hta Htb [c1 Hc1] [c2 Hc2].
  unfold process_frame, mbind, result_mbind. cbv zeta.
  unfold df_getattr at 1. rewrite Ha. cbn [result_bind].
  unfold df_getattr at 1. rewrite Hb. cbn [result_bind].
  unfold series_sub. rewrite (sub_ticks_list_total _ _ Hta Htb).
  unfold result_map at 1. cbn [result_bind].
  unfold df_getattr. cbn [df_setitem df_columns df_index].
  rewrite assoc_get_set, decide_True by done.
  cbn [result_bind dt_total_seconds].
  rewrite !assoc_set_twice, !assoc_get_set, !decide_True by done.
  cbn [result_bind series_ge series_le].
  rewrite df_getitem_list_present; cycle 1.
  { unfold categorical. cbn [df_filter df_columns df_index df_setitem].
    constructor; [|constructor; [|constructor]];
      rewrite assoc_get_fmap, !assoc_get_set, !decide_False by done.
    - by rewrite Hc1.
    - by rewrite Hc2. }
  unfold categorical, df_getitem, result_map.
  cbn [result_mapM df_filter df_columns df_index df_setitem].
  rewrite assoc_get_fmap, !assoc_get_set, !decide_False, Hc1 by done.
  cbn [fmap option_fmap option_map result_bind].
  rewrite assoc_get_fmap, !assoc_get_set, !decide_False, Hc2 by done.
  cbn [fmap option_fmap option_map result_bind]. eauto.
Qed.

Lemma read_dataframe_succeeds (filename : string) (df : DataFrame) (la lb : list Z)
    (st : state) :
  read_parquet filename = Ok df →
  assoc_get "lpep_dropoff_datetime" (df_columns df) = Some (ColTime la) →
  assoc_get "lpep_pickup_datetime" (df_columns df) = Some (ColTime lb) →
  Forall time_ok la → Forall time_ok lb →
  is_Some (assoc_get "PULocationID" (df_columns df)) →
  is_Some (assoc_get "DOLocationID" (df_columns df)) →
  ∃ out, read_dataframe filename st = (Ok out, state_after_read filename (Ok out) st).
Proof.
  intros Hread Ha Hb Hta Htb Hpu Hdo.
  destruct (process_frame_total df la lb) as [out Hout]; try done.
  exists out. rewrite read_dataframe_eq, Hread. simpl. by rewrite Hout.
Qed.

(** ** The loader: which rows survive *)

(** C1.  A row of the source appears in the table the loader returns
    exactly when its duration -- the dropoff time minus the pickup time, in
    seconds, over 60, as a float64 -- lies between 1 and 60, both ends
    included.  The returned rows are the rows in range, cleaned, and
    nothing else is dropped; the duration is stored unrounded. *)
Theorem read_dataframe_keeps_rows_in_range
    (filename : string) (df out : DataFrame) (st st' : state) :
  read_parquet filename = Ok df →
  df_wf df →
  read_dataframe filename st = (Ok out, st') →
  df_records out
  = clean_record <$> filter (λ r, Is_true (in_range (record_duration r))) (df_records df)
  ∧ (∀ r, r ∈ df_records df →
       (clean_record r ∈ df_records out ↔
        PrimFloat.leb 1 (record_duration r) = true ∧
        PrimFloat.leb (record_duration r) 60 = true))
  ∧ (∀ r', r' ∈ df_records out →
       ∃ r, r ∈ df_records df ∧ r' = clean_record r ∧
            assoc_get "duration" r'.2 = Some (CFloat (record_duration r))).
Proof.
  intros Hread [_ Hcols] Hrun.
  destruct (read_dataframe_ok_inv _ _ _ _ Hrun) as (df' & Hread' & Hp & _).
  rewrite Hread in Hread'. injection Hread' as <-.
  destruct (process_frame_records _ _ Hcols Hp) as [_ Hrec].
  split; [done|]. rewrite Hrec. split.
  - intros r Hr. rewrite <-andb_true_iff. fold (in_range (record_duration r)).
    rewrite list_elem_of_fmap. split.
    + intros (r' & Heq & Hr'). apply list_elem_of_filter in Hr' as [Hin _].
      pose proof (clean_record_duration r) as H1.
      pose proof (clean_record_duration r') as H2.
      rewrite Heq, H2 in H1. injection H1 as <-. by apply Is_true_true.
    + intros Hin. exists r. split; [done|].
      apply list_elem_of_filter. split; [by apply Is_true_true|done].
  - intros r' (r & -> & Hr)%list_elem_of_fmap.
    apply list_elem_of_filter in Hr as [_ Hr].
    exists r. by rewrite clean_record_duration.
Qed.

Lemma assoc_set_names_gen {A} (name : string) (c : A) (cols : list (string * A)) :
  (assoc_set name c cols).*1
  = if decide (name ∈ cols.*1) then cols.*1 else cols.*1 ++ [name].
Proof.
  induction cols as [|[n c'] cols IH].
  - by case_decide as H; [apply elem_of_nil in H|].
  - cbn [assoc_set]. destruct (decide (n = name)) as [->|Hne]; csimpl.
    + clear IH. case_decide as H; [done|]. destruct H. by left.
    + rewrite IH. clear IH. destruct (decide (name ∈ cols.*1)) as [Hin|Hin].
      * case_decide as H; [done|]. destruct H. by right.
      * case_decide as H; [|done]. by apply elem_of_cons in H as [?|?].
Qed.

Lemma process_frame_columns (df out : DataFrame) :
  process_frame df = Ok out →
  (df_columns out).*1
  = if decide ("duration" ∈ (df_columns df).*1)
    then (df_columns df).*1 else (df_columns df).*1 ++ ["duration"].
Proof.
  intros Hp.
  destruct (process_frame_inv _ _ Hp)
    as (ctor & la & lb & ld & c1 & c2 & _ & _ & _ & _ & Hc1 & Hc2 & ->).
  cbv zeta in Hc1, Hc2. cbn [df_setitem df_columns].
  rewrite (assoc_set_names "DOLocationID").
  2:{ rewrite assoc_get_set, decide_False by done. by rewrite Hc2. }
  rewrite (assoc_set_names "PULocationID") by by rewrite Hc1.
  cbn [df_filter df_setitem df_columns].
  rewrite <-list_fmap_compose.
  erewrite list_fmap_ext; [apply assoc_set_names_gen|]. by intros ? [].
Qed.

(** C9.  The loader leaves every other column of a surviving row as the
    source has it, and keeps the surviving rows in the order of the source:
    the returned rows pair off, in order, with a sublist of the source
    rows; each keeps its index label and every cell outside [duration],
    [PULocationID] and [DOLocationID].  The columns are those of the
    source, in the same order, with [duration] added at the end unless the
    source already had one. *)
Theorem read_dataframe_preserves_other_columns
    (filename : string) (df out : DataFrame) (st st' : state) :
  read_parquet filename = Ok df →
  df_wf df →
  read_dataframe filename st = (Ok out, st') →
  (df_columns out).*1
  = (if decide ("duration" ∈ (df_columns df).*1)
     then (df_columns df).*1 else (df_columns df).*1 ++ ["duration"])
  ∧ ∃ kept : list record,
      kept `sublist_of` df_records df ∧
      Forall2 (λ r r' : record,
                 r'.1 = r.1 ∧
                 ∀ name, name ∉ ["duration"; "PULocationID"; "DOLocationID"] →
                         assoc_get name r'.2 = assoc_get name r.2)
              kept (df_records out).
Proof.
  intros Hread [_ Hcols] Hrun.
  destruct (read_dataframe_ok_inv _ _ _ _ Hrun) as (df' & Hread' & Hp & _).
  rewrite Hread in Hread'. injection Hread' as <-.
  destruct (process_frame_records _ _ Hcols Hp) as [_ Hrec].
  split; [by apply process_frame_columns|].
  exists (filter (λ r, Is_true (in_range (record_duration r))) (df_records df)).
  split; [apply sublist_filter|].
  rewrite Hrec. apply Forall2_fmap_r, Forall_Forall2_diag, Forall_forall.
  intros r _. split; [done|]. intros name Hname. by apply clean_record_other.
Qed.

Lemma df_records_cell (df : DataFrame) (name : string) (c : column) (r : record) :
  df_aligned df →
  assoc_get name (df_columns df) = Some c →
  r ∈ df_records df →
  ∃ x, x ∈ col_cells c ∧ assoc_get name r.2 = Some x.
Proof.
  intros Hcols Hget Hr.
  pose proof (df_records_assoc_get _ _ _ Hcols Hget) as Hcells.
  apply list_elem_of_fmap_2 with (f := λ r : record, assoc_get name r.2) in Hr.
  rewrite Hcells in Hr. apply list_elem_of_fmap in Hr as (x & Hx & Hin). eauto.
Qed.

(** C6.  In a table the loader returns, the columns [PULocationID] and
    [DOLocationID] are text columns with one entry per row; the rows that
    were converted are exactly the rows that survived the duration filter,
    each holding the text of the identifier the source had. *)
Theorem read_dataframe_ids_are_text
    (filename : string) (df out : DataFrame) (st st' : state) (name : string) :
  read_parquet filename = Ok df →
  df_wf df →
  read_dataframe filename st = (Ok out, st') →
  name ∈ categorical →
  (∃ l, assoc_get name (df_columns out) = Some (ColStr l) ∧ length l = df_len out)
  ∧ Forall2 (λ r r' : record,
               ∃ c, assoc_get name r.2 = Some c ∧
                    assoc_get name r'.2 = Some (CStr (str_cell c)))
            (filter (λ r, Is_true (in_range (record_duration r))) (df_records df))
            (df_records out).
Proof.
  intros Hread [_ Hcols] Hrun Hname.
  destruct (read_dataframe_ok_inv _ _ _ _ Hrun) as (df' & Hread' & Hp & _).
  rewrite Hread in Hread'. injection Hread' as <-.
  destruct (process_frame_records _ _ Hcols Hp) as [Hcols' Hrec].
  assert (∃ l, assoc_get name (df_columns out) = Some (ColStr l)) as [l Hl].
  { destruct (process_frame_inv _ _ Hp)
      as (ctor & la & lb & ld & c1 & c2 & _ & _ & _ & _ & _ & _ & ->).
    cbn [df_setitem df_columns]. rewrite !assoc_get_set.
    unfold categorical in Hname.
    apply elem_of_cons in Hname as [-> | ->%list_elem_of_singleton].
    - rewrite decide_False, decide_True by done. unfold col_astype_str. eauto.
    - rewrite decide_True by done. unfold col_astype_str. eauto. }
  split.
  - exists l. split; [done|].
    rewrite <-(df_aligned_get _ _ _ Hcols' Hl). unfold col_len; simpl.
    by rewrite length_fmap.
  - rewrite Hrec. apply Forall2_fmap_r, Forall_Forall2_diag, Forall_forall.
    intros r Hr.
    destruct (df_records_cell out name (ColStr l) (clean_record r)) as (x & _ & Hx);
      [done|done|by rewrite Hrec; apply list_elem_of_fmap_2|].
    rewrite clean_record_id in Hx by done.
    destruct (assoc_get name r.2) as [c|] eqn:Hc; [|done].
    exists c. by rewrite clean_record_id, Hc.
Qed.

(** ** The loader: failures *)

Lemma read_dataframe_raise_inv (filename : string) (st st' : state) (e : exn) :
  read_dataframe filename st = (Raise e, st') →
  (read_parquet filename = Raise e ∨
   ∃ df, read_parquet filename = Ok df ∧ process_frame df = Raise e)
  ∧ st' = state_after_read filename (Raise e) st.
Proof.
  rewrite read_dataframe_eq. simpl.
  destruct (read_parquet filename) as [df|e'] eqn:Hread; simpl.
  - intros [= Hp <-]. rewrite Hp. eauto.
  - intros [= -> <-]. eauto.
Qed.

(** C5.  When the source cannot be read, or the frame read cannot be
    processed, the loader ends with that very failure: it has made its one
    request to the source, has logged the location and the description of
    the failure at error level, returns no table, and leaves the files
    alone. *)
Theorem read_dataframe_logs_and_reraises (filename : string) (st : state) (e : exn) :
  exn_is_Exception e = true →
  (read_parquet filename = Raise e ∨
   ∃ df, read_parquet filename = Ok df ∧ process_frame df = Raise e) →
  read_dataframe filename st
  = (Raise e,
     State (st_log st ++ [(INFO, "loading file: " +:+ filename);
                          (ERROR, "error reading: " +:+ filename);
                          (ERROR, exn_msg e)])
           (st_reads st ++ [filename])
           (st_fs st)).
Proof.
  intros He Hfail. rewrite read_dataframe_eq.
  assert (result_bind (read_parquet filename) process_frame = Raise e) as ->.
  { destruct Hfail as [-> | (df & -> & Hp)]; done. }
  unfold state_after_read, log_line. rewrite He. simpl.
  by rewrite <-!app_assoc.
Qed.

(** ** The trainer as a composition of its steps *)

Lemma str_format_base_url (y m : Z) :
  str_format base_url [("year", y); ("month", m)] = Ok (url_of y m).
Proof. reflexivity. Qed.

Lemma train_eq (train_date val_date : date) (out_path : string) (st : state) :
  train train_date val_date out_path st
  = match read_dataframe (url_of (year train_date) (month train_date)) st with
    | (Raise e, st1) => (Raise e, st1)
    | (Ok df_train, st1) =>
        match read_dataframe (url_of (year val_date) (month val_date)) st1 with
        | (Raise e, st2) => (Raise e, st2)
        | (Ok df_val, st2) =>
            match fit_and_score df_train df_val with
            | Raise e => (Raise e, st2)
            | Ok (pipeline, mse) =>
                match open_wb_dump out_path pipeline
                        (log_line INFO ("writing model into " +:+ out_path)
                           (log_line INFO ("mse=" +:+ py_repr (CFloat mse)) st2)) with
                | (Ok _, st4) => (Ok mse, st4)
                | (Raise e, st4) => (Raise e, st4)
                end
            end
        end
    end.
Proof.
  unfold train. rewrite !str_format_base_url.
  unfold mbind at 1 2, M_bind, lift at 1 2. 
  unfold mbind at 1, M_bind.
  destruct (read_dataframe _ st) as [[df_train|e] st1]; [|done].
  unfold mbind at 1, M_bind.
  destruct (read_dataframe _ st1) as [[df_val|e] st2]; [|done].
  unfold fit_and_score, mbind, M_bind, result_mbind, lift, logger_info, mret, M_ret.
  repeat (match goal with
          | |- context [result_bind ?r _] => destruct r as [?|?]; cbn [result_bind]; [|done]
          end).
  match goal with |- context [let '(_, _) := ?p in _] => destruct p as [pipeline y_pred] end.
  destruct (mean_squared_error _ _ _) as [mse|]; cbn [result_bind]; [|done].
  by destruct (open_wb_dump _ _ _) as [[[]|] ?].
Qed.

Lemma read_dataframe_state (filename : string) (st : state) :
  st_fs (read_dataframe filename st).2 = st_fs st ∧
  st_reads (read_dataframe filename st).2 = st_reads st ++ [filename].
Proof.
  rewrite read_dataframe_eq. simpl. unfold state_after_read.
  destruct (result_bind _ _) as [df|e]; simpl; [done|].
  by destruct (exn_is_Exception e).
Qed.

Lemma open_wb_dump_reads (out_path : string) (pipeline : Pipeline) (st : state) :
  st_reads (open_wb_dump out_path pipeline st).2 = st_reads st.
Proof.
  unfold open_wb_dump. destruct (open_error out_path); [done|].
  by destruct (pickle_dump pipeline).2.
Qed.

Lemma format_02d_month (m : Z) :
  (1 ≤ m ≤ 12)%Z →
  String.length (format_02d m) = 2 ∧
  format_02d m = (if (m <? 10)%Z then "0" +:+ pretty m else pretty m).
Proof.
  intros Hm.
  assert (m ∈ [1; 2; 3; 4; 5; 6; 7; 8; 9; 10; 11; 12]%Z) as Hin.
  { rewrite !elem_of_cons. lia. }
  repeat (apply elem_of_cons in Hin as [-> | Hin]; [by vm_compute|]).
  by apply elem_of_nil in Hin.
Qed.

(** ** The trainer: where the data comes from *)

(** C7.  [train] fills the fixed template, which ends in
    [green_tripdata_{year}-{month:02d}.parquet], with the year and the
    month of each period: the two locations are the fixed address followed
    by the year, a dash, the month and [.parquet]; a month of the calendar
    comes out as two digits, with a leading zero below ten.  The requests
    [train] makes are to these locations, the training one first, and to
    no other; the day of a date plays no part. *)
Theorem train_resolves_locations (train_date val_date : date) (out_path : string)
    (st : state) :
  let train_url := url_of (year train_date) (month train_date) in
  let val_url := url_of (year val_date) (month val_date) in
  (∃ prefix, base_url = prefix +:+ "green_tripdata_{year}-{month:02d}.parquet")
  ∧ str_format base_url [("year", year train_date); ("month", month train_date)]
    = Ok train_url
  ∧ str_format base_url [("year", year val_date); ("month", month val_date)]
    = Ok val_url
  ∧ (∀ m, (1 ≤ m ≤ 12)%Z →
          String.length (format_02d m) = 2 ∧
          format_02d m = (if (m <? 10)%Z then "0" +:+ pretty m else pretty m))
  ∧ st_reads (train train_date val_date out_path st).2
    = st_reads st ++
      match (read_dataframe train_url st).1 with
      | Ok _ => [train_url; val_url]
      | Raise _ => [train_url]
      end.
Proof.
  intros train_url val_url.
  split; [by exists "https://d37ci6vzurychx.cloudfront.net/trip-data/"|].
  split; [apply str_format_base_url|].
  split; [apply str_format_base_url|].
  split; [apply format_02d_month|].
  rewrite train_eq. fold train_url val_url.
  pose proof (read_dataframe_state train_url st) as [_ Hr1].
  destruct (read_dataframe train_url st) as [[df_train|e] st1]; simpl in *; [|done].
  pose proof (read_dataframe_state val_url st1) as [_ Hr2].
  destruct (read_dataframe val_url st1) as [[df_val|e] st2]; simpl in *.
  - destruct (fit_and_score df_train df_val) as [[pipeline mse]|e]; simpl.
    + pose proof (open_wb_dump_reads out_path pipeline
        (log_line INFO ("writing model into " +:+ out_path)
           (log_line INFO ("mse=" +:+ py_repr (CFloat mse)) st2))) as Hr3.
      destruct (open_wb_dump _ _ _) as [[[]|] st4]; simpl in *;
        by rewrite Hr3, Hr2, Hr1, <-app_assoc.
    + by rewrite Hr2, Hr1, <-app_assoc.
  - by rewrite Hr2, Hr1, <-app_assoc.
Qed.

(** C10.  [train] reads its two dates through their year and month alone:
    runs on dates that agree on both end in the same result and the same
    state -- the same requests, log lines and files. *)
Theorem train_depends_on_year_and_month
    (train_date train_date' val_date val_date' : date) (out_path : string) (st : state) :
  year train_date = year train_date' →
  month train_date = month train_date' →
  year val_date = year val_date' →
  month val_date = month val_date' →
  train train_date val_date out_path st = train train_date' val_date' out_path st.
Proof. intros Hy Hm Hy' Hm'. unfold train. by rewrite Hy, Hm, Hy', Hm'. Qed.

(** ** The trainer: failures and the output file *)



(** ** The trainer: what a successful run did *)

Lemma fit_and_score_inv (df_train df_val : DataFrame) (pipeline : Pipeline) (v : float) :
  fit_and_score df_train df_val = Ok (pipeline, v) →
  ∃ sub_train sub_val y_train y_val fitted y_pred,
    df_getitem_list df_train (categorical ++ numerical) = Ok sub_train ∧
    df_getitem_list df_val (categorical ++ numerical) = Ok sub_val ∧
    df_getitem df_train target = Ok y_train ∧
    df_getitem df_val target = Ok y_val ∧
    pipeline_fit (make_pipeline DV_unfitted None) (to_dict_records sub_train) y_train
    = Ok fitted ∧
    pipeline_predict fitted (to_dict_records sub_val) = Ok (pipeline, y_pred) ∧
    mean_squared_error y_val y_pred false = Ok v.
Proof.
  unfold fit_and_score, mbind, result_mbind, result_map. intros H.
  destruct (df_getitem_list df_train _) as [sub_train|]; cbn [result_bind] in H; [|done].
  destruct (df_getitem_list df_val _) as [sub_val|]; cbn [result_bind] in H; [|done].
  destruct (df_getitem df_train _) as [y_train|]; cbn [result_bind] in H; [|done].
  destruct (df_getitem df_val _) as [y_val|]; cbn [result_bind] in H; [|done].
  destruct (pipeline_fit _ _ _) as [fitted|] eqn:Hfit; cbn [result_bind] in H; [|done].
  destruct (pipeline_predict _ _) as [[p y_pred]|] eqn:Hpred; cbn [result_bind] in H;
    [|done].
  destruct (mean_squared_error _ _ _) as [mse|] eqn:Hmse; cbn [result_bind] in H; [|done].
  injection H as <- <-. exists sub_train, sub_val, y_train, y_val, fitted, y_pred.
  repeat split; done.
Qed.

Lemma train_ok_inv (train_date val_date : date) (out_path : string) (st st' : state)
    (v : float) :
  train train_date val_date out_path st = (Ok v, st') →
  ∃ df_train st1 df_val st2 pipeline,
    read_dataframe (url_of (year train_date) (month train_date)) st = (Ok df_train, st1) ∧
    read_dataframe (url_of (year val_date) (month val_date)) st1 = (Ok df_val, st2) ∧
    fit_and_score df_train df_val = Ok (pipeline, v) ∧
    open_error out_path = None ∧
    (pickle_dump pipeline).2 = None ∧
    st_fs st' = <[out_path := (pickle_dump pipeline).1]> (st_fs st) ∧
    st_log st' = st_log st2 ++ [(INFO, "mse=" +:+ py_repr (CFloat v));
                                (INFO, "writing model into " +:+ out_path)].
Proof.
  rewrite train_eq.
  pose proof (read_dataframe_state (url_of (year train_date) (month train_date)) st)
    as [Hf1 _].
  destruct (read_dataframe _ st) as [[df_train|] st1] eqn:Hr1; [|done].
  pose proof (read_dataframe_state (url_of (year val_date) (month val_date)) st1)
    as [Hf2 _].
  destruct (read_dataframe _ st1) as [[df_val|] st2] eqn:Hr2; [|done].
  destruct (fit_and_score df_train df_val) as [[pipeline mse]|] eqn:Hfit; [|done].
  unfold open_wb_dump.
  destruct (open_error out_path) eqn:Ho; [done|].
  destruct (pickle_dump pipeline).2 eqn:Hd; [done|].
  intros [= <- <-]. exists df_train, st1, df_val, st2, pipeline.
  simpl in *. rewrite Hf2, Hf1, <-app_assoc. done.
Qed.

(** ** The summation *)

(** The cut of an array longer than a block leaves both halves shorter. *)
Lemma pairwise_cut (n : nat) :
  PW_BLOCKSIZE < n →
  let n2 := n `div` 2 - (n `div` 2) `mod` 8 in 0 < n2 < n.
Proof.
  unfold PW_BLOCKSIZE. intros Hn.
  pose proof (Nat.div_mod_eq n 2) as H2.
  pose proof (Nat.mod_upper_bound n 2) as H2'.
  pose proof (Nat.div_mod_eq (n `div` 2) 8) as H8.
  pose proof (Nat.mod_upper_bound (n `div` 2) 8) as H8'.
  revert H2 H2' H8 H8'.
  generalize (n `div` 2) (n `mod` 2). intros q r.
  generalize (q `div` 8) (q `mod` 8). intros q' r'. cbv zeta. lia.
Qed.

Lemma pairwise_sum_go_steps (s1 s2 : nat) (l : list float) :
  length l ≤ s1 → length l ≤ s2 → pairwise_sum_go s1 l = pairwise_sum_go s2 l.
Proof.
  revert s2 l. induction s1 as [|s1 IH]; intros [|s2] l H1 H2; cbn [pairwise_sum_go];
    try done.
  - rewrite decide_True; [done|]. unfold PW_BLOCKSIZE. lia.
  - rewrite decide_True; [done|]. unfold PW_BLOCKSIZE. lia.
  - case_decide as Hlen; [done|]. cbv zeta.
    destruct (pairwise_cut (length l)) as [Hpos Hlt]; [lia|].
    f_equal; apply IH; rewrite ?length_take, ?length_drop; lia.
Qed.

(** The summation as the loop states it, without the count of steps. *)
Lemma pairwise_sum_unfold (l : list float) :
  pairwise_sum l
  = if decide (length l ≤ PW_BLOCKSIZE) then pairwise_leaf l
    else
      let n2 := length l `div` 2 in
      let n2 := n2 - n2 `mod` 8 in
      (pairwise_sum (take n2 l) + pairwise_sum (drop n2 l))%float.
Proof.
  unfold pairwise_sum. destruct (length l) as [|n] eqn:Hn; cbn [pairwise_sum_go].
  - rewrite decide_True; [done|]. unfold PW_BLOCKSIZE. lia.
  - rewrite <-Hn. case_decide as Hlen; [done|]. cbv zeta.
    destruct (pairwise_cut (length l)) as [Hpos Hlt]; [lia|].
    f_equal; apply pairwise_sum_go_steps; rewrite ?length_take, ?length_drop; lia.
Qed.


Lemma process_frame_duration (df out : DataFrame) :
  process_frame df = Ok out →
  ∃ l, assoc_get "duration" (df_columns out) = Some (ColFloat l).
Proof.
  intros Hp.
  destruct (process_frame_inv _ _ Hp)
    as (ctor & la & lb & ld & c1 & c2 & _ & _ & _ & _ & _ & _ & ->).
  cbn [df_setitem df_columns df_filter].
  rewrite !assoc_get_set, !decide_False by done.
  rewrite assoc_get_fmap, assoc_get_set, decide_True by done. simpl. eauto.
Qed.

(** ** The trainer: the value returned *)


(** ** The vectorizer *)

(** The vectorizer knows nothing of the world of the script. *)
Local Ltac forget_world :=
  clear pickle_dump open_error lr_predict lr_fit lr_model py_repr read_parquet pps.

(** The vectorizer's reading of an item is the dimension and the value of
    the pair. *)
Lemma dv_feature_pair (fv : string * cell) :
  dv_feature fv.1 fv.2
  = match feature_name fv with
    | Some f => Ok (f, feature_value fv)
    | None => Raise (TypeError "Unsupported value type")
    end.
Proof. destruct fv as [f []]; done. Qed.

Lemma dv_item_transform (vocab : gmap string nat) (names : list string)
    (row : list (nat * float)) (fv : string * cell) (acc : dv_acc) :
  dv_item false (vocab, names, row) fv = Ok acc →
  acc = (vocab, names, row ++ dict_entries vocab [fv]).
Proof.
  unfold dv_item, dict_entries, mbind, result_mbind.
  rewrite (dv_feature_pair fv). simpl.
  destruct (feature_name fv) as [name|]; simpl; [|done].
  destruct (vocab !! name) as [j|]; simpl; intros [= <-]; [done|].
  by rewrite app_nil_r.
Qed.

Lemma dict_entries_app (vocab : gmap string nat) (x1 x2 : feature_dict) :
  dict_entries vocab (x1 ++ x2) = dict_entries vocab x1 ++ dict_entries vocab x2.
Proof. unfold dict_entries. apply omap_app. Qed.

Lemma dv_items_transform (vocab : gmap string nat) (names : list string)
    (x : feature_dict) (row : list (nat * float)) (acc : dv_acc) :
  result_foldl (dv_item false) (vocab, names, row) x = Ok acc →
  acc = (vocab, names, row ++ dict_entries vocab x).
Proof.
  revert row. induction x as [|fv x IH]; intros row; cbn [result_foldl].
  - intros [= <-]. by rewrite app_nil_r.
  - destruct (dv_item false (vocab, names, row) fv) as [acc'|] eqn:Hitem;
      cbn [result_bind]; [|done].
    apply dv_item_transform in Hitem as ->. intros ->%IH.
    by rewrite <-app_assoc, <-dict_entries_app.
Qed.

Lemma dv_dicts_transform (vocab : gmap string nat) (names : list string)
    (X : list feature_dict) (rows : list (list (nat * float)))
    (acc : gmap string nat * list string * list (list (nat * float))) :
  result_foldl (dv_dict false) (vocab, names, rows) X = Ok acc →
  acc = (vocab, names, rows ++ (dict_entries vocab <$> X)).
Proof.
  revert rows. induction X as [|x X IH]; intros rows; cbn [result_foldl].
  - intros [= <-]. by rewrite app_nil_r.
  - unfold dv_dict at 1, mbind, result_mbind.
    destruct (result_foldl (dv_item false) _ x) as [acc'|] eqn:Hx;
      cbn [result_bind]; [|done].
    apply dv_items_transform in Hx as ->. cbn [result_bind app]. intros ->%IH.
    by rewrite <-app_assoc.
Qed.

(** Transforming with a fitted vectorizer leaves the vectorizer as it is
    and yields, per dictionary, its entries under the fitted vocabulary. *)
Lemma dv_transform_fitted (names : list string) (vocab : gmap string nat)
    (X : list feature_dict) (dv : DictVectorizer) (M : csr_matrix) :
  dv_transform (DV_fitted names vocab) X = Ok (dv, M) →
  dv = DV_fitted names vocab ∧
  M = Csr (length X, size vocab) (sort_indices ∘ dict_entries vocab <$> X).
Proof.
  unfold dv_transform, dv_transform_, mbind, result_mbind; simpl.
  destruct (result_foldl _ _ X) as [acc|] eqn:HX; simpl; [|done].
  apply dv_dicts_transform in HX as ->. simpl.
  case_bool_decide; [done|]. intros [= <- <-].
  by rewrite list_fmap_compose.
Qed.

Lemma is_vocabulary_empty : is_vocabulary [] ∅.
Proof. split; [constructor|]. intros f j. by rewrite lookup_empty, lookup_nil. Qed.

Lemma is_vocabulary_elem (names : list string) (vocab : gmap string nat) (f : string) :
  is_vocabulary names vocab → f ∈ names ↔ is_Some (vocab !! f).
Proof.
  intros [_ Hidx]. rewrite list_elem_of_lookup. unfold is_Some.
  split; intros [j Hj]; exists j; by apply Hidx.
Qed.

Lemma is_vocabulary_snoc (names : list string) (vocab : gmap string nat) (name : string) :
  is_vocabulary names vocab →
  vocab !! name = None →
  is_vocabulary (names ++ [name]) (<[name := length names]> vocab).
Proof.
  intros Hv Hnone.
  assert (name ∉ names) as Hnotin.
  { rewrite (is_vocabulary_elem _ _ _ Hv), Hnone. by intros []. }
  destruct Hv as [Hnodup Hidx]. split.
  - apply NoDup_app. split; [done|]. split; [|apply NoDup_singleton].
    by intros f Hf ->%list_elem_of_singleton.
  - intros f j. rewrite lookup_snoc_Some.
    destruct (decide (f = name)) as [-> | Hne].
    + rewrite lookup_insert_eq. split.
      * intros [= <-]. by right.
      * intros [[_ Hj] | [-> _]]; [|done].
        destruct Hnotin. apply list_elem_of_lookup. eauto.
    + rewrite lookup_insert_ne by done. rewrite Hidx. split.
      * intros Hj. left. split; [|done]. by apply lookup_lt_Some in Hj.
      * by intros [[_ Hj] | [_ ?]].
Qed.

Lemma dv_item_fit (vocab vocab' : gmap string nat) (names names' : list string)
    (row row' : list (nat * float)) (fv : string * cell) :
  dv_item true (vocab, names, row) fv = Ok (vocab', names', row') →
  is_vocabulary names vocab →
  is_vocabulary names' vocab' ∧
  ∀ f, f ∈ names' ↔ f ∈ names ∨ feature_name fv = Some f.
Proof.
  forget_world.
  unfold dv_item, mbind, result_mbind. rewrite (dv_feature_pair fv). simpl.
  destruct (feature_name fv) as [name|]; simpl; [|done].
  intros Hitem Hv. case_bool_decide as Hnone.
  - rewrite lookup_insert_eq in Hitem. injection Hitem as <- <- <-.
    split; [by apply is_vocabulary_snoc|].
    intros f. rewrite elem_of_app, list_elem_of_singleton. intuition congruence.
  - destruct (vocab !! name) as [j|] eqn:Hj; [|done].
    assert (vocab' = vocab ∧ names' = names) as [-> ->] by (by simplify_eq).
    split; [done|]. intros f. split; [by left|].
    intros [?|[= <-]]; [done|]. apply (is_vocabulary_elem _ _ _ Hv). by rewrite Hj.
Qed.

Lemma dv_items_fit (x : feature_dict) (vocab vocab' : gmap string nat)
    (names names' : list string) (row row' : list (nat * float)) :
  result_foldl (dv_item true) (vocab, names, row) x = Ok (vocab', names', row') →
  is_vocabulary names vocab →
  is_vocabulary names' vocab' ∧
  ∀ f, f ∈ names' ↔ f ∈ names ∨ f ∈ omap feature_name x.
Proof.
  forget_world.
  revert vocab names row. induction x as [|fv x IH]; intros vocab names row;
    cbn [result_foldl].
  - intros [= <- <- <-] Hv. split; [done|]. intros f. csimpl.
    rewrite elem_of_nil. intuition congruence.
  - destruct (dv_item true (vocab, names, row) fv) as [[[vocab1 names1] row1]|] eqn:Hitem;
      cbn [result_bind]; [|done].
    intros Hfold Hv. destruct (dv_item_fit _ _ _ _ _ _ _ Hitem Hv) as [Hv1 Hin1].
    destruct (IH _ _ _ Hfold Hv1) as [Hv' Hin']. split; [done|].
    intros f. rewrite Hin', Hin1. csimpl.
    destruct (feature_name fv) as [name|]; rewrite ?elem_of_cons; intuition congruence.
Qed.

Lemma dv_dicts_fit (X : list feature_dict) (vocab vocab' : gmap string nat)
    (names names' : list string) (rows rows' : list (list (nat * float))) :
  result_foldl (dv_dict true) (vocab, names, rows) X = Ok (vocab', names', rows') →
  is_vocabulary names vocab →
  is_vocabulary names' vocab' ∧
  ∀ f, f ∈ names' ↔ f ∈ names ∨ f ∈ observed X.
Proof.
  forget_world.
  unfold observed.
  revert vocab names rows. induction X as [|x X IH]; intros vocab names rows;
    cbn [result_foldl].
  - intros [= <- <- <-] Hv. split; [done|]. intros f. csimpl.
    rewrite elem_of_nil. intuition congruence.
  - unfold dv_dict at 1, mbind, result_mbind.
    destruct (result_foldl (dv_item true) _ x) as [[[vocab1 names1] row1]|] eqn:Hx;
      cbn [result_bind]; [|done].
    intros Hfold Hv. destruct (dv_items_fit _ _ _ _ _ _ _ Hx Hv) as [Hv1 Hin1].
    destruct (IH _ _ _ Hfold Hv1) as [Hv' Hin']. split; [done|].
    intros f. rewrite Hin', Hin1. csimpl. rewrite omap_app, elem_of_app. intuition congruence.
Qed.

(** Renumbering the features by their position in a duplicate-free list. *)
Lemma renumber_lookup (l : list string) (g : nat → nat) (v : gmap string nat)
    (f : string) (j : nat) :
  NoDup l →
  (foldl (λ v jf, <[jf.2 := jf.1]> v) v (imap (λ i x, (g i, x)) l)) !! f = Some j
  ↔ (∃ i, l !! i = Some f ∧ j = g i) ∨ ((f ∉ l) ∧ v !! f = Some j).
Proof.
  forget_world.
  revert g v. induction l as [|x l IH]; intros g v Hnodup; csimpl.
  - split; [intros ?; right; split; [apply not_elem_of_nil|done]|].
    by intros [(i & Hi & _) | [_ ?]].
  - apply NoDup_cons in Hnodup as [Hx Hnodup].
    rewrite (IH (g ∘ S) _ Hnodup). rewrite not_elem_of_cons. split.
    + intros [(i & Hi & ->) | [Hf Hj]]; [left; by exists (S i)|].
      destruct (decide (f = x)) as [-> | Hne].
      * rewrite lookup_insert_eq in Hj. injection Hj as <-. left. by exists 0.
      * rewrite lookup_insert_ne in Hj by done. by right.
    + intros [([|i] & Hi & ->) | [[Hne Hf] Hj]].
      * injection Hi as ->. right. by rewrite lookup_insert_eq.
      * left. by exists i.
      * right. by rewrite lookup_insert_ne.
Qed.

(** Fitting builds the sorted list of the features observed in the
    training dictionaries, and numbers them by position. *)
Lemma dv_fit_transform_fitted (self dv : DictVectorizer) (X : list feature_dict)
    (Xt : csr_matrix) :
  dv_fit_transform self X = Ok (dv, Xt) →
  ∃ names vocab,
    dv = DV_fitted names vocab ∧
    Sorted String.le names ∧
    is_vocabulary names vocab ∧
    ∀ f, f ∈ names ↔ f ∈ observed X.
Proof.
  forget_world.
  unfold dv_fit_transform, dv_transform_, mbind, result_mbind. cbn [result_bind fst snd].
  destruct (result_foldl _ _ X) as [[[vocab0 names0] rows]|] eqn:HX;
    cbn [result_bind]; [|done].
  case_bool_decide; [done|]. intros [= <- _].
  destruct (dv_dicts_fit _ _ _ _ _ _ _ HX is_vocabulary_empty) as [Hv0 Hin0].
  set (sorted := merge_sort String.le names0).
  assert (sorted ≡ₚ names0) as Hperm by apply merge_sort_Permutation.
  assert (NoDup sorted) as Hnodup by (rewrite Hperm; apply Hv0).
  eexists sorted, _. split; [done|]. split; [apply (Sorted_merge_sort _)|].
  split; [split; [done|]|].
  - intros f j. rewrite (renumber_lookup sorted id) by done. split.
    + intros [(i & Hi & ->) | [Hf Hj]]; [done|].
      destruct Hf. rewrite Hperm. apply (is_vocabulary_elem _ _ _ Hv0). by rewrite Hj.
    + intros Hj. left. by exists j.
  - intros f. rewrite Hperm, Hin0, elem_of_nil. tauto.
Qed.

(** The fitted vectorizer is determined by the set of features observed. *)
Lemma vocabulary_unique (names1 names2 : list string) (vocab1 vocab2 : gmap string nat) :
  Sorted String.le names1 → Sorted String.le names2 →
  is_vocabulary names1 vocab1 → is_vocabulary names2 vocab2 →
  (∀ f, f ∈ names1 ↔ f ∈ names2) →
  names1 = names2 ∧ vocab1 = vocab2.
Proof.
  forget_world.
  intros Hs1 Hs2 [Hn1 Hi1] [Hn2 Hi2] Hsame.
  assert (names1 = names2) as <-.
  { apply (Sorted_unique String.le); [done|done|]. by apply NoDup_Permutation. }
  split; [done|]. apply map_eq. intros f. apply option_eq. intros j.
  by rewrite Hi1, Hi2.
Qed.

Lemma is_vocabulary_size (names : list string) (vocab : gmap string nat) :
  is_vocabulary names vocab → size vocab = length names.
Proof.
  forget_world.
  intros [Hnodup Hidx].
  assert (vocab = list_to_map (zip names (seq 0 (length names)))) as ->.
  { apply map_eq. intros f. apply option_eq. intros j. rewrite Hidx.
    rewrite <-elem_of_list_to_map.
    - rewrite list_elem_of_lookup. split.
      + intros Hj. exists j. rewrite lookup_zip_with, Hj. simpl.
        rewrite lookup_seq_lt by by apply lookup_lt_Some in Hj. done.
      + intros (i & Hi). rewrite lookup_zip_with in Hi.
        destruct (names !! i) as [f'|] eqn:Hf'; simpl in Hi; [|done].
        destruct (seq 0 (length names) !! i) as [j'|] eqn:Hj'; simpl in Hi; [|done].
        apply lookup_seq in Hj' as [-> _]. by simplify_eq.
    - rewrite fst_zip; [done|]. by rewrite length_seq. }
  rewrite map_size_list_to_map.
  - by rewrite length_zip_with, length_seq, Nat.min_id.
  - rewrite fst_zip; [done|]. by rewrite length_seq.
Qed.

Lemma dict_entries_unseen (vocab : gmap string nat) (names : list string)
    (fv : string * cell) :
  is_vocabulary names vocab →
  (∀ f, feature_name fv = Some f → f ∉ names) →
  dict_entries vocab [fv] = [].
Proof.
  forget_world.
  intros Hv Hunseen. unfold dict_entries; simpl.
  destruct (feature_name fv) as [name|]; simpl; [|done].
  destruct (vocab !! name) as [j|] eqn:Hj; simpl; [|done].
  destruct (Hunseen name eq_refl). apply (is_vocabulary_elem _ _ _ Hv). by rewrite Hj.
Qed.

Lemma dense_row_nil (n : nat) : dense_row n [] = replicate n 0%float.
Proof.
  unfold dense_row. generalize 0 at 1. induction n as [|n IH]; intros k; [done|].
  csimpl. by rewrite IH.
Qed.

Lemma pipeline_fit_inv (X : list feature_dict) (y : column) (fitted : Pipeline) :
  pipeline_fit (make_pipeline DV_unfitted None) X y = Ok fitted →
  ∃ dv Xt lr,
    dv_fit_transform DV_unfitted X = Ok (dv, Xt) ∧ lr_fit Xt y = Ok lr ∧
    fitted = (dv, Some lr).
Proof.
  unfold pipeline_fit, make_pipeline, mbind, result_mbind. cbn [fst].
  destruct (dv_fit_transform DV_unfitted X) as [[dv Xt]|]; cbn [result_bind]; [|done].
  destruct (lr_fit Xt y) as [lr|] eqn:Hlr; cbn [result_bind]; [|done].
  intros [= <-]. by exists dv, Xt, lr.
Qed.

Lemma pipeline_predict_inv (dv : DictVectorizer) (lr : lr_model) (X : list feature_dict)
    (pipeline : Pipeline) (y_pred : list float) :
  pipeline_predict (dv, Some lr) X = Ok (pipeline, y_pred) →
  ∃ dv' Xt,
    dv_transform dv X = Ok (dv', Xt) ∧ lr_predict lr Xt = Ok y_pred ∧
    pipeline = (dv', Some lr).
Proof.
  unfold pipeline_predict, mbind, result_mbind. cbn [fst snd].
  destruct (dv_transform dv X) as [[dv' Xt]|]; cbn [result_bind]; [|done].
  destruct (lr_predict lr Xt) as [y|] eqn:Hy; cbn [result_bind]; [|done].
  intros [= <- <-]. by exists dv', Xt.
Qed.

(** * Further properties of the loader *)

Lemma filter_mask_Forall {A} (P : A → bool) (l : list A) :
  Forall (λ x, P x = true) (filter_mask (P <$> l) l).
Proof.
  induction l as [|x l IH]; csimpl; [done|].
  destruct (P x) eqn:HP; [by constructor|done].
Qed.

Lemma process_frame_duration_in_range (df out : DataFrame) :
  process_frame df = Ok out →
  ∃ l, assoc_get "duration" (df_columns out) = Some (ColFloat l) ∧
       Forall (λ d, in_range d = true) l.
Proof.
  intros Hp.
  destruct (process_frame_inv _ _ Hp)
    as (ctor & la & lb & ld & c1 & c2 & _ & _ & _ & _ & _ & _ & ->).
  cbn [df_setitem df_columns df_filter].
  rewrite !assoc_get_set, !decide_False by done.
  rewrite assoc_get_fmap, assoc_get_set, decide_True by done. simpl.
  eexists. split; [done|]. apply filter_mask_Forall.
Qed.

(** A float between 1 and 60 is a finite number. *)
Lemma in_range_finite (d : float) : in_range d = true → PrimFloat.is_finite d = true.
Proof.
  unfold in_range, PrimFloat.is_finite, PrimFloat.is_nan, PrimFloat.is_infinity.
  rewrite andb_true_iff, !FloatAxioms.leb_spec, !FloatAxioms.eqb_spec,
    FloatAxioms.abs_spec.
  change (FloatOps.Prim2SF PrimFloat.infinity) with (SpecFloat.S754_infinity false).
  change (FloatOps.Prim2SF 1) with (SpecFloat.S754_finite false 4503599627370496 (-52)).
  change (FloatOps.Prim2SF 60) with (SpecFloat.S754_finite false 8444249301319680 (-47)).
  destruct (FloatOps.Prim2SF d) as [s|s| |s m e]; simpl.
  - done.
  - by destruct s; intros [].
  - by intros [].
  - intros _.
    assert (SpecFloat.SFeqb (SpecFloat.S754_finite s m e) (SpecFloat.S754_finite s m e)
            = true) as ->; [|done].
    unfold SpecFloat.SFeqb, SpecFloat.SFcompare. rewrite Z.compare_refl.
    change (Pos.compare_cont Eq m m) with (m ?= m)%positive.
    rewrite Pos.compare_refl. by destruct s.
Qed.

(** After a successful call the log has gained the two lines of the
    loader, the second giving the number of rows that passed the filter;
    one request was made and no file was touched. *)
Theorem read_dataframe_success_effects
    (filename : string) (df out : DataFrame) (st st' : state) :
  read_parquet filename = Ok df →
  df_wf df →
  read_dataframe filename st = (Ok out, st') →
  let n := length (filter (λ r, Is_true (in_range (record_duration r))) (df_records df)) in
  df_len out = n ∧
  st' = State (st_log st ++ [(INFO, "loading file: " +:+ filename);
                             (INFO, filename +:+ " had " +:+ pretty n +:+ " rows")])
              (st_reads st ++ [filename])
              (st_fs st).
Proof.
  intros Hread [_ Hcols] Hrun n.
  destruct (read_dataframe_ok_inv _ _ _ _ Hrun) as (df' & Hread' & Hp & ->).
  rewrite Hread in Hread'. injection Hread' as <-.
  destruct (process_frame_records _ _ Hcols Hp) as [Hcols' Hrec].
  assert (df_len out = n) as Hn.
  { rewrite <-(df_records_length out Hcols'), Hrec. by rewrite length_fmap. }
  split; [done|]. unfold state_after_read, log_line; simpl.
  by rewrite Hn, <-app_assoc.
Qed.

(** Every duration in a table the loader returns is a finite float64
    between 1 and 60; the target column holds no NaN and no infinity. *)
Theorem read_dataframe_durations_in_range
    (filename : string) (out : DataFrame) (st st' : state) :
  read_dataframe filename st = (Ok out, st') →
  ∃ l, df_getitem out target = Ok (ColFloat l) ∧
       Forall (λ d, PrimFloat.leb 1 d = true ∧ PrimFloat.leb d 60 = true ∧
                    PrimFloat.is_finite d = true) l.
Proof.
  intros Hrun.
  destruct (read_dataframe_ok_inv _ _ _ _ Hrun) as (df & _ & Hp & _).
  destruct (process_frame_duration_in_range _ _ Hp) as (l & Hl & Hrange).
  exists l. unfold df_getitem, target. rewrite Hl. split; [done|].
  eapply Forall_impl; [exact Hrange|]. intros d Hd. simpl in Hd.
  pose proof (in_range_finite d Hd) as Hfin.
  unfold in_range in Hd. apply andb_true_iff in Hd as [? ?]. done.
Qed.

(** A source without the dropoff column, or without the pickup column,
    fails on the access to the first of the two that is missing, dropoff
    first; the failure is logged and raised like any other. *)
Theorem read_dataframe_missing_time_column
    (filename : string) (df : DataFrame) (st : state) :
  read_parquet filename = Ok df →
  assoc_get "lpep_dropoff_datetime" (df_columns df) = None ∨
  assoc_get "lpep_pickup_datetime" (df_columns df) = None →
  let name := match assoc_get "lpep_dropoff_datetime" (df_columns df) with
              | None => "lpep_dropoff_datetime"
              | Some _ => "lpep_pickup_datetime"
              end in
  let msg := "'DataFrame' object has no attribute '" +:+ name +:+ "'" in
  read_dataframe filename st
  = (Raise (AttributeError msg),
     State (st_log st ++ [(INFO, "loading file: " +:+ filename);
                          (ERROR, "error reading: " +:+ filename);
                          (ERROR, msg)])
           (st_reads st ++ [filename])
           (st_fs st)).
Proof.
  intros Hread Hmissing name msg. rewrite read_dataframe_eq, Hread.
  assert (process_frame df = Raise (AttributeError msg)) as Hp.
  { unfold process_frame, mbind, result_mbind, msg, name.
    unfold df_getattr at 1.
    destruct (assoc_get "lpep_dropoff_datetime" _) as [cd|]; [|done].
    cbn [result_bind]. unfold df_getattr at 1.
    destruct Hmissing as [?| ->]; done. }
  cbn [result_bind]. rewrite Hp. unfold state_after_read, log_line; simpl.
  by rewrite <-!app_assoc.
Qed.

(** The loader interrupted by something that is not an [Exception] -- a
    keyboard interrupt, a system exit -- lets it through as it is and logs
    no error line. *)
Theorem read_dataframe_interrupt_not_logged (filename : string) (st : state) (e : exn) :
  exn_is_Exception e = false →
  read_parquet filename = Raise e →
  read_dataframe filename st
  = (Raise e,
     State (st_log st ++ [(INFO, "loading file: " +:+ filename)])
           (st_reads st ++ [filename])
           (st_fs st)).
Proof.
  intros He Hread. rewrite read_dataframe_eq, Hread. simpl.
  unfold state_after_read. by rewrite He.
Qed.

(** With both time columns in place and an identifier column missing, the
    selection of the two identifier columns is what fails. *)
Lemma process_frame_times_ok (df : DataFrame) (la lb : list Z) :
  assoc_get "lpep_dropoff_datetime" (df_columns df) = Some (ColTime la) →
  assoc_get "lpep_pickup_datetime" (df_columns df) = Some (ColTime lb) →
  Forall time_ok la → Forall time_ok lb →
  assoc_get "PULocationID" (df_columns df) = None ∨
  assoc_get "DOLocationID" (df_columns df) = None →
  ∃ arg, process_frame df = Raise (KeyError arg).
Proof.
  intros Ha Hb Hta Htb Hmissing.
  unfold process_frame, mbind, result_mbind; cbv zeta.
  unfold df_getattr at 1; rewrite Ha; cbn [result_bind].
  unfold df_getattr at 1; rewrite Hb; cbn [result_bind].
  unfold series_sub; rewrite (sub_ticks_list_total _ _ Hta Htb).
  unfold result_map at 1; cbn [result_bind].
  unfold df_getattr; cbn [df_setitem df_columns df_index].
  rewrite assoc_get_set, decide_True by done.
  cbn [result_bind dt_total_seconds].
  rewrite !assoc_set_twice, !assoc_get_set, !decide_True by done.
  cbn [result_bind series_ge series_le].
  match goal with
  | |- context [df_getitem_list ?d categorical] =>
      assert (∃ n, n ∈ categorical ∧ assoc_get n (df_columns d) = None)
        as (n & Hn & Hnone)
  end.
  { cbn [df_filter df_columns df_index df_setitem]. unfold categorical.
    destruct Hmissing as [Hm|Hm];
      [exists "PULocationID"|exists "DOLocationID"];
      (split; [rewrite !elem_of_cons; by eauto|]);
      by rewrite assoc_get_fmap, !assoc_get_set, !decide_False, Hm by done. }
  destruct (df_getitem_list_missing _ _ _ Hn Hnone) as [arg ->].
  by exists arg.
Qed.

(** A source with both time columns but without one of the two identifier
    columns fails with a [KeyError] in the selection of the categorical
    columns, after the durations were computed and the rows filtered; the
    failure is logged and raised, and no table is returned. *)
Theorem read_dataframe_missing_id_column
    (filename : string) (df : DataFrame) (la lb : list Z) (st : state) :
  read_parquet filename = Ok df →
  assoc_get "lpep_dropoff_datetime" (df_columns df) = Some (ColTime la) →
  assoc_get "lpep_pickup_datetime" (df_columns df) = Some (ColTime lb) →
  Forall time_ok la → Forall time_ok lb →
  assoc_get "PULocationID" (df_columns df) = None ∨
  assoc_get "DOLocationID" (df_columns df) = None →
  ∃ e, exn_class e = "KeyError" ∧
       read_dataframe filename st
       = (Raise e,
          State (st_log st ++ [(INFO, "loading file: " +:+ filename);
                               (ERROR, "error reading: " +:+ filename);
                               (ERROR, exn_msg e)])
                (st_reads st ++ [filename])
                (st_fs st)).
Proof.
  intros Hread Ha Hb Hta Htb Hmissing.
  destruct (process_frame_times_ok df la lb Ha Hb Hta Htb Hmissing) as [name Hp].
  exists (KeyError name). split; [done|].
  rewrite read_dataframe_eq, Hread.
  cbn [result_bind]. rewrite Hp. unfold state_after_read, log_line; simpl.
  by rewrite <-!app_assoc.
Qed.

Lemma sub_ticks_list_raises (la lb : list Z) (e : exn) :
  sub_ticks_list la lb = Raise e → exn_is_Exception e = true.
Proof.
  unfold sub_ticks_list. generalize (zip la lb). intros l. revert e.
  induction l as [|[a b] l IH]; intros e; cbn [result_mapM]; [done|].
  unfold sub_ticks at 1; simpl.
  case_decide; cbn [result_bind].
  - destruct (result_mapM _ l) eqn:Hl; cbn [result_bind]; [done|].
    intros [= <-]. by apply IH.
  - destruct (in_int64 (a - b)); cbn [result_bind]; [|by intros [= <-]].
    destruct (result_mapM _ l) eqn:Hl; cbn [result_bind]; [done|].
    intros [= <-]. by apply IH.
Qed.

Lemma process_frame_other_dtypes (df : DataFrame) (dropoff pickup : column) :
  assoc_get "lpep_dropoff_datetime" (df_columns df) = Some dropoff →
  assoc_get "lpep_pickup_datetime" (df_columns df) = Some pickup →
  (∀ la lb, ¬ (dropoff = ColTime la ∧ pickup = ColTime lb)) →
  (∀ la lb, ¬ (dropoff = ColDelta la ∧ pickup = ColDelta lb)) →
  ∃ e, process_frame df = Raise e ∧ exn_is_Exception e = true.
Proof.
  intros Ha Hb Hnt Hnd.
  unfold process_frame, mbind, result_mbind; cbv zeta.
  unfold df_getattr at 1; rewrite Ha; cbn [result_bind].
  unfold df_getattr at 1; rewrite Hb; cbn [result_bind].
  destruct (series_sub dropoff pickup) as [delta|e] eqn:Hsub; cbn [result_bind].
  - unfold df_getattr at 1. cbn [df_setitem df_columns].
    rewrite assoc_get_set, decide_True by done. cbn [result_bind].
    destruct delta as [l|l|l|l|l]; cbn [dt_total_seconds result_bind];
      try (eexists; split; done).
    destruct dropoff as [l1|l1|l1|l1|l1], pickup as [l2|l2|l2|l2|l2];
      simpl in Hsub; unfold result_map in Hsub; try done;
      try (by destruct (Hnt l1 l2)); try (by destruct (Hnd l1 l2));
      by destruct (sub_ticks_list l1 l2).
  - exists e. split; [done|].
    destruct dropoff as [l1|l1|l1|l1|l1], pickup as [l2|l2|l2|l2|l2];
      simpl in Hsub; unfold result_map in Hsub; try done;
      try (by injection Hsub as <-);
      try (by destruct (Hnt l1 l2)); try (by destruct (Hnd l1 l2)).
    destruct (sub_ticks_list l1 l2) as [|e'] eqn:Hl; [done|].
    injection Hsub as <-. by apply (sub_ticks_list_raises l1 l2).
Qed.

(** The loader returns a table only when the two time columns are both
    datetime columns or both timedelta columns.  With any other pair of
    dtypes the subtraction or the [.dt] accessor fails; the failure is
    logged and raised, and no table is returned. *)
Theorem read_dataframe_rejects_other_dtypes
    (filename : string) (df : DataFrame) (dropoff pickup : column) (st : state) :
  read_parquet filename = Ok df →
  assoc_get "lpep_dropoff_datetime" (df_columns df) = Some dropoff →
  assoc_get "lpep_pickup_datetime" (df_columns df) = Some pickup →
  (∀ la lb, ¬ (dropoff = ColTime la ∧ pickup = ColTime lb)) →
  (∀ la lb, ¬ (dropoff = ColDelta la ∧ pickup = ColDelta lb)) →
  ∃ e, exn_is_Exception e = true ∧
       read_dataframe filename st
       = (Raise e,
          State (st_log st ++ [(INFO, "loading file: " +:+ filename);
                               (ERROR, "error reading: " +:+ filename);
                               (ERROR, exn_msg e)])
                (st_reads st ++ [filename])
                (st_fs st)).
Proof.
  intros Hread Ha Hb Hnt Hnd.
  destruct (process_frame_other_dtypes df dropoff pickup Ha Hb Hnt Hnd) as (e & Hp & He).
  exists e. split; [done|].
  rewrite read_dataframe_eq, Hread. cbn [result_bind]. rewrite Hp.
  unfold state_after_read, log_line. rewrite He. simpl.
  by rewrite <-!app_assoc.
Qed.

(** The table the loader returns is again a well-formed frame: its columns
    are as long as its index and their names are distinct. *)
Theorem read_dataframe_keeps_frame_wf
    (filename : string) (df out : DataFrame) (st st' : state) :
  read_parquet filename = Ok df →
  df_wf df →
  read_dataframe filename st = (Ok out, st') →
  df_wf out.
Proof.
  intros Hread [Hnodup Hcols] Hrun.
  destruct (read_dataframe_ok_inv _ _ _ _ Hrun) as (df' & Hread' & Hp & _).
  rewrite Hread in Hread'. injection Hread' as <-.
  destruct (process_frame_records _ _ Hcols Hp) as [Hcols' _].
  split; [|done]. rewrite (process_frame_columns _ _ Hp).
  case_decide as Hin; [done|].
  apply NoDup_app. split; [done|]. split; [|apply NoDup_singleton].
  by intros f Hf ->%list_elem_of_singleton.
Qed.

(** * Further properties of the trainer *)

Lemma process_frame_ids (df out : DataFrame) :
  process_frame df = Ok out →
  ∃ l1 l2, assoc_get "PULocationID" (df_columns out) = Some (ColStr l1) ∧
           assoc_get "DOLocationID" (df_columns out) = Some (ColStr l2).
Proof.
  intros Hp.
  destruct (process_frame_inv _ _ Hp)
    as (ctor & la & lb & ld & c1 & c2 & _ & _ & _ & _ & _ & _ & ->).
  cbn [df_setitem df_columns]. rewrite !assoc_get_set.
  rewrite decide_False, !decide_True by done. unfold col_astype_str. eauto.
Qed.

(** The three feature columns of a cleaned table: the two identifiers are
    there, as text; only the distance can be missing. *)
Lemma feature_columns (df out : DataFrame) :
  process_frame df = Ok out →
  df_getitem_list out (categorical ++ numerical)
  = match assoc_get "trip_distance" (df_columns out) with
    | None => Raise (KeyError "['trip_distance'] not in index")
    | Some c =>
        Ok (Frame (df_index out)
              [("PULocationID", default (ColStr [])
                                  (assoc_get "PULocationID" (df_columns out)));
               ("DOLocationID", default (ColStr [])
                                  (assoc_get "DOLocationID" (df_columns out)));
               ("trip_distance", c)])
    end.
Proof.
  intros Hp. destruct (process_frame_ids _ _ Hp) as (l1 & l2 & H1 & H2).
  destruct (assoc_get "trip_distance" (df_columns out)) as [c|] eqn:Htd.
  - rewrite df_getitem_list_present; cycle 1.
    { unfold categorical, numerical. cbn [app].
      constructor; [|constructor; [|constructor; [|constructor]]].
      - by rewrite H1.
      - by rewrite H2.
      - by rewrite Htd. }
    unfold categorical, numerical, df_getitem, result_map.
    cbn [app result_mapM]. rewrite H1, H2, Htd. done.
  - unfold df_getitem_list, missing_columns, categorical, numerical. cbv zeta.
    cbn [app]. rewrite !filter_cons, filter_nil, H1, H2, Htd.
    rewrite (decide_False (P := Some (ColStr l1) = None)) by done.
    rewrite (decide_False (P := Some (ColStr l2) = None)) by done.
    rewrite (decide_True (P := None = None)) by done.
    rewrite decide_False by done. rewrite decide_False by done. done.
Qed.

Lemma to_dict_records_empty (idx : list Z) (cols : list (string * column)) :
  idx = [] → to_dict_records (Frame idx cols) = [].
Proof. intros ->. done. Qed.

(** A run that returns has made its two requests, logged six lines, and
    written the pickle of the fitted pipeline to the output path: the
    files after the run are the files before it with the output path
    set to those bytes -- whatever was there before is replaced, and every
    other path is as it was. *)
Theorem train_success_effects
    (train_date val_date : date) (out_path : string) (st st' : state) (v : float) :
  train train_date val_date out_path st = (Ok v, st') →
  let train_url := url_of (year train_date) (month train_date) in
  let val_url := url_of (year val_date) (month val_date) in
  ∃ df_train df_val pipeline,
    (read_dataframe train_url st).1 = Ok df_train
    ∧ (read_dataframe val_url st).1 = Ok df_val
    ∧ fit_and_score df_train df_val = Ok (pipeline, v)
    ∧ st_log st'
    = st_log st ++
      [(INFO, "loading file: " +:+ train_url);
       (INFO, train_url +:+ " had " +:+ pretty (df_len df_train) +:+ " rows");
       (INFO, "loading file: " +:+ val_url);
       (INFO, val_url +:+ " had " +:+ pretty (df_len df_val) +:+ " rows");
       (INFO, "mse=" +:+ py_repr (CFloat v));
       (INFO, "writing model into " +:+ out_path)]
    ∧ st_reads st' = st_reads st ++ [train_url; val_url]
    ∧ st_fs st' = <[out_path := (pickle_dump pipeline).1]> (st_fs st)
    ∧ st_fs st' !! out_path = Some (pickle_dump pipeline).1
    ∧ ∀ path, path ≠ out_path → st_fs st' !! path = st_fs st !! path.
Proof.
  intros Hrun train_url val_url.
  destruct (train_ok_inv _ _ _ _ _ _ Hrun)
    as (df_train & st1 & df_val & st2 & pipeline & Hr1 & Hr2 & Hfit & _ & _ & Hfs & Hlog).
  fold train_url in Hr1. fold val_url in Hr2.
  assert (st_reads st' = st_reads st2) as Hreads.
  { rewrite train_eq in Hrun. fold train_url val_url in Hrun. rewrite Hr1, Hr2 in Hrun.
    destruct (fit_and_score df_train df_val) as [[p mse]|]; [|done].
    pose proof (open_wb_dump_reads out_path p
      (log_line INFO ("writing model into " +:+ out_path)
         (log_line INFO ("mse=" +:+ py_repr (CFloat mse)) st2))) as Hr.
    destruct (open_wb_dump _ _ _) as [[[]|] st4]; [|done].
    injection Hrun as _ <-. exact Hr. }
  destruct (read_dataframe_ok_inv _ _ _ _ Hr1) as (_ & _ & _ & Hst1).
  destruct (read_dataframe_ok_inv _ _ _ _ Hr2) as (_ & _ & _ & Hst2).
  exists df_train, df_val, pipeline.
  split; [by rewrite Hr1|].
  split; [by rewrite read_dataframe_eq in Hr2 |- *; simplify_eq/=|].
  split; [done|].
  subst st1 st2.
  split; [|split; [|split; [|split]]].
  - rewrite Hlog. unfold state_after_read, log_line; simpl.
    by rewrite <-!app_assoc.
  - rewrite Hreads. unfold state_after_read, log_line; simpl.
    by rewrite <-!app_assoc.
  - done.
  - by rewrite Hfs, lookup_insert_eq.
  - intros path Hpath. by rewrite Hfs, lookup_insert_ne.
Qed.

Lemma read_dataframe_ok_columns (filename : string) (out : DataFrame) (st st' : state) :
  read_dataframe filename st = (Ok out, st') →
  (∃ l1 l2 l,
     assoc_get "PULocationID" (df_columns out) = Some (ColStr l1) ∧
     assoc_get "DOLocationID" (df_columns out) = Some (ColStr l2) ∧
     assoc_get "duration" (df_columns out) = Some (ColFloat l)) ∧
  df_getitem_list out (categorical ++ numerical)
  = match assoc_get "trip_distance" (df_columns out) with
    | None => Raise (KeyError "['trip_distance'] not in index")
    | Some c =>
        Ok (Frame (df_index out)
              [("PULocationID", default (ColStr [])
                                  (assoc_get "PULocationID" (df_columns out)));
               ("DOLocationID", default (ColStr [])
                                  (assoc_get "DOLocationID" (df_columns out)));
               ("trip_distance", c)])
    end ∧
  st_fs st' = st_fs st ∧ st_reads st' = st_reads st ++ [filename].
Proof.
  intros Hrun.
  pose proof (read_dataframe_state filename st) as Hst. rewrite Hrun in Hst.
  destruct (read_dataframe_ok_inv _ _ _ _ Hrun) as (df & _ & Hp & _).
  destruct (process_frame_ids _ _ Hp) as (l1 & l2 & H1 & H2).
  destruct (process_frame_duration _ _ Hp) as (l & Hl).
  split; [by exists l1, l2, l|]. split; [|done].
  by rewrite (feature_columns _ _ Hp).
Qed.

(** When no training trip passes the duration filter, the cleaned training
    table is empty and [train] fails in the fit -- the vectorizer refuses
    an empty sample -- after both sources were loaded; nothing is
    written. *)
Theorem train_fails_on_empty_training_table
    (train_date val_date : date) (out_path : string) (st st1 st2 : state)
    (df_train df_val : DataFrame) :
  read_dataframe (url_of (year train_date) (month train_date)) st = (Ok df_train, st1) →
  read_dataframe (url_of (year val_date) (month val_date)) st1 = (Ok df_val, st2) →
  is_Some (assoc_get "trip_distance" (df_columns df_train)) →
  is_Some (assoc_get "trip_distance" (df_columns df_val)) →
  df_len df_train = 0 →
  train train_date val_date out_path st
  = (Raise (ValueError "Sample sequence X is empty."), st2)
  ∧ st_fs st2 = st_fs st.
Proof.
  intros Hr1 Hr2 [c1 Hc1] [c2 Hc2] Hlen.
  destruct (read_dataframe_ok_columns _ _ _ _ Hr1)
    as ((l1 & l2 & l & _ & _ & Hl) & Hsub1 & Hfs1 & _).
  destruct (read_dataframe_ok_columns _ _ _ _ Hr2)
    as ((l1' & l2' & l' & _ & _ & Hl') & Hsub2 & Hfs2 & _).
  split; [|congruence].
  rewrite train_eq, Hr1, Hr2.
  assert (fit_and_score df_train df_val
          = Raise (ValueError "Sample sequence X is empty.")) as ->; [|done].
  unfold fit_and_score, mbind, result_mbind.
  rewrite Hsub1, Hsub2, Hc1, Hc2. unfold result_map, df_getitem, target.
  rewrite Hl, Hl'. cbn [result_bind].
  rewrite to_dict_records_empty by by apply nil_length_inv.
  done.
Qed.

(** When no validation trip passes the duration filter, [train] fails in
    the prediction, after the pipeline was fitted: the vectorizer refuses
    an empty sample, and the fitted pipeline is not written. *)
Theorem train_fails_on_empty_validation_table
    (train_date val_date : date) (out_path : string) (st st1 st2 : state)
    (df_train df_val sub_train : DataFrame) (y_train : column) (fitted : Pipeline) :
  read_dataframe (url_of (year train_date) (month train_date)) st = (Ok df_train, st1) →
  read_dataframe (url_of (year val_date) (month val_date)) st1 = (Ok df_val, st2) →
  df_getitem_list df_train (categorical ++ numerical) = Ok sub_train →
  df_getitem df_train target = Ok y_train →
  pipeline_fit (make_pipeline DV_unfitted None) (to_dict_records sub_train) y_train
  = Ok fitted →
  is_Some (assoc_get "trip_distance" (df_columns df_val)) →
  df_len df_val = 0 →
  train train_date val_date out_path st
  = (Raise (ValueError "Sample sequence X is empty."), st2)
  ∧ st_fs st2 = st_fs st.
Proof.
  intros Hr1 Hr2 Hsub1 Hy1 Hfit [c2 Hc2] Hlen.
  destruct (read_dataframe_ok_columns _ _ _ _ Hr1) as (_ & _ & Hfs1 & _).
  destruct (read_dataframe_ok_columns _ _ _ _ Hr2)
    as ((l1' & l2' & l' & _ & _ & Hl') & Hsub2 & Hfs2 & _).
  split; [|congruence].
  rewrite train_eq, Hr1, Hr2.
  assert (fit_and_score df_train df_val
          = Raise (ValueError "Sample sequence X is empty.")) as ->; [|done].
  unfold fit_and_score, mbind, result_mbind.
  rewrite Hsub1, Hsub2, Hc2, Hy1. unfold result_map, df_getitem, target.
  rewrite Hl'. cbn [result_bind]. rewrite Hfit. cbn [result_bind].
  rewrite to_dict_records_empty by by apply nil_length_inv.
  destruct (pipeline_fit_inv _ _ _ Hfit) as (dv & Xt & lr & Hdv & _ & ->).
  destruct (dv_fit_transform_fitted _ _ _ _ Hdv) as (names & vocab & -> & _).
  done.
Qed.

(** The loader does not look at the distance column; a source without it
    is only refused by [train], with a [KeyError], once both sources have
    been loaded.  Nothing is written. *)
Theorem train_missing_distance_column
    (train_date val_date : date) (out_path : string) (st st1 st2 : state)
    (df_train df_val : DataFrame) :
  read_dataframe (url_of (year train_date) (month train_date)) st = (Ok df_train, st1) →
  read_dataframe (url_of (year val_date) (month val_date)) st1 = (Ok df_val, st2) →
  assoc_get "trip_distance" (df_columns df_train) = None ∨
  assoc_get "trip_distance" (df_columns df_val) = None →
  ∃ e, exn_class e = "KeyError"
       ∧ train train_date val_date out_path st = (Raise e, st2)
       ∧ st_reads st2
         = st_reads st ++ [url_of (year train_date) (month train_date);
                           url_of (year val_date) (month val_date)]
       ∧ st_fs st2 = st_fs st.
Proof.
  intros Hr1 Hr2 Hmissing.
  destruct (read_dataframe_ok_columns _ _ _ _ Hr1) as (_ & Hsub1 & Hfs1 & Hrd1).
  destruct (read_dataframe_ok_columns _ _ _ _ Hr2) as (_ & Hsub2 & Hfs2 & Hrd2).
  exists (KeyError "['trip_distance'] not in index"). split; [done|].
  split; [|split; [by rewrite Hrd2, Hrd1, <-app_assoc|congruence]].
  rewrite train_eq, Hr1, Hr2.
  assert (fit_and_score df_train df_val
          = Raise (KeyError "['trip_distance'] not in index")) as ->;
    [|done].
  unfold fit_and_score, mbind, result_mbind. rewrite Hsub1, Hsub2.
  destruct (assoc_get "trip_distance" (df_columns df_train)); [|done].
  destruct Hmissing as [?| ->]; done.
Qed.

(** What a failed write leaves behind.  When the output path cannot be
    opened, the run ends in that failure with the files as they were,
    though the log already announces the write.  When [pickle.dump] fails,
    the output path holds the bytes written so far: whatever was stored
    there before is gone. *)
Theorem train_write_failure
    (train_date val_date : date) (out_path : string) (st st1 st2 : state)
    (df_train df_val : DataFrame) (pipeline : Pipeline) (v : float) (e : exn) :
  read_dataframe (url_of (year train_date) (month train_date)) st = (Ok df_train, st1) →
  read_dataframe (url_of (year val_date) (month val_date)) st1 = (Ok df_val, st2) →
  fit_and_score df_train df_val = Ok (pipeline, v) →
  open_error out_path = Some e ∨
  (open_error out_path = None ∧ (pickle_dump pipeline).2 = Some e) →
  ∃ st',
    train train_date val_date out_path st = (Raise e, st')
    ∧ st_log st' = st_log st2 ++ [(INFO, "mse=" +:+ py_repr (CFloat v));
                                  (INFO, "writing model into " +:+ out_path)]
    ∧ st_fs st' = match open_error out_path with
                  | Some _ => st_fs st
                  | None => <[out_path := (pickle_dump pipeline).1]> (st_fs st)
                  end.
Proof.
  intros Hr1 Hr2 Hfit Hfail.
  destruct (read_dataframe_ok_columns _ _ _ _ Hr1) as (_ & _ & Hfs1 & _).
  destruct (read_dataframe_ok_columns _ _ _ _ Hr2) as (_ & _ & Hfs2 & _).
  rewrite train_eq, Hr1, Hr2, Hfit. unfold open_wb_dump.
  destruct Hfail as [-> | [-> ->]]; eexists; (split; [done|]); simpl;
    rewrite <-app_assoc; (split; [done|]); congruence.
Qed.

Lemma elem_of_concat {A} (x : A) (ls : list (list A)) :
  x ∈ concat ls ↔ ∃ l, l ∈ ls ∧ x ∈ l.
Proof.
  induction ls as [|l ls IH]; simpl.
  - split; [by intros ?%elem_of_nil|]. by intros (l & ?%elem_of_nil & _).
  - rewrite elem_of_app, IH. split.
    + intros [Hx | (l' & Hl' & Hx)]; [exists l|exists l'];
        (split; [|done]); [by left|by right].
    + intros (l' & [-> | Hl']%elem_of_cons & Hx); [by left|]. right. by exists l'.
Qed.

(** The dictionaries of a three-column feature frame: the two identifiers
    as text, then the distance. *)
Lemma feature_dicts_shape (idx : list Z) (l1 l2 : list string) (c : column)
    (x : feature_dict) :
  x ∈ to_dict_records
        (Frame idx [("PULocationID", ColStr l1); ("DOLocationID", ColStr l2);
                    ("trip_distance", c)]) →
  ∃ s1 s2 d,
    x = [("PULocationID", CStr s1); ("DOLocationID", CStr s2); ("trip_distance", d)] ∧
    s1 ∈ l1 ∧ s2 ∈ l2 ∧ d ∈ col_cells c.
Proof.
  unfold to_dict_records, df_records. cbn [df_index df_columns cols_records col_cells].
  intros ([i r] & -> & Hr%elem_of_zip_r)%list_elem_of_fmap. simpl.
  apply elem_of_zip_with in Hr as (x1 & r1 & -> & Hx1 & Hr1).
  apply elem_of_zip_with in Hr1 as (x2 & r2 & -> & Hx2 & Hr2).
  apply elem_of_zip_with in Hr2 as (d & r3 & -> & Hd & ->%elem_of_replicate_inv).
  apply list_elem_of_fmap in Hx1 as (s1 & -> & Hs1).
  apply list_elem_of_fmap in Hx2 as (s2 & -> & Hs2).
  by exists s1, s2, d.
Qed.

(** ** The trainer: the vectorizer *)

(** The feature dictionaries of a cleaned table name the two identifiers
    and the distance, so the dimension of a categorical (field, value)
    pair is that of no other pair. *)
Lemma categorical_dimension (idx : list Z) (l1 l2 : list string) (c : column)
    (field s : string) :
  field ∈ categorical →
  let X := to_dict_records
             (Frame idx [("PULocationID", ColStr l1); ("DOLocationID", ColStr l2);
                         ("trip_distance", c)]) in
  (field +:+ "=" +:+ s) ∈ observed X ↔ ∃ x, x ∈ X ∧ (field, CStr s) ∈ x.
Proof.
  forget_world.
  intros Hfield X. unfold observed. rewrite list_elem_of_omap. split.
  - intros ([k d] & Hkd & Hname).
    apply elem_of_concat in Hkd as (x & Hx & Hkd). exists x. split; [done|].
    destruct (feature_dicts_shape _ _ _ _ _ Hx) as (s1 & s2 & d' & -> & _).
    unfold categorical in Hfield. unfold feature_name in Hname.
    rewrite !elem_of_cons in Hkd. rewrite !elem_of_cons in Hfield.
    rewrite !elem_of_cons.
    destruct Hkd as [[= -> ->] | [[= -> ->] | [[= -> ->] | []%elem_of_nil]]];
      destruct Hfield as [-> | [-> | []%elem_of_nil]];
      try (destruct d'); simplify_eq/=; eauto.
  - intros (x & Hx & Hkd). exists (field, CStr s). split; [|done].
    apply elem_of_concat. by exists x.
Qed.

(** C2.  In a run of [train] that returns, the vectorizer of the pipeline
    is the one fitted on the training feature dictionaries: its features
    are the dimensions of the (field, value) pairs observed in those
    dictionaries, sorted and numbered by position, so that any other
    training set showing the same pairs gives the same vectorizer.  A
    location [s] has its dimension [PULocationID=s] (or [DOLocationID=s])
    exactly when some training trip has that pair, and a pair with a
    dimension puts a one there.  The validation dictionaries are
    transformed by that vectorizer, which the call leaves as fitted, into
    a matrix with one column per training feature; the pipeline written to
    the output path holds that same vectorizer.  A pair that was not
    observed in training -- a validation-only location -- adds no entry to
    its row: the row is the row without the pair, and the pair alone is
    zero in every column. *)
Theorem train_vectorizer_fitted_on_training_only
    (train_date val_date : date) (out_path : string) (st st' : state) (v : float) :
  train train_date val_date out_path st = (Ok v, st') →
  ∃ df_train st1 df_val st2 sub_train sub_val names vocab lr,
    read_dataframe (url_of (year train_date) (month train_date)) st = (Ok df_train, st1) ∧
    read_dataframe (url_of (year val_date) (month val_date)) st1 = (Ok df_val, st2) ∧
    df_getitem_list df_train ["PULocationID"; "DOLocationID"; "trip_distance"]
    = Ok sub_train ∧
    df_getitem_list df_val ["PULocationID"; "DOLocationID"; "trip_distance"]
    = Ok sub_val ∧
    let train_dicts := to_dict_records sub_train in
    let val_dicts := to_dict_records sub_val in
    let X_val := Csr (length val_dicts, length names)
                     (sort_indices ∘ dict_entries vocab <$> val_dicts) in
    (∃ X_train y_train,
       dv_fit_transform DV_unfitted train_dicts = Ok (DV_fitted names vocab, X_train) ∧
       df_getitem df_train "duration" = Ok y_train ∧
       lr_fit X_train y_train = Ok lr) ∧
    Sorted String.le names ∧
    is_vocabulary names vocab ∧
    (∀ f, f ∈ names ↔ f ∈ observed train_dicts) ∧
    (∀ field s, field ∈ categorical →
       (field +:+ "=" +:+ s) ∈ names ↔ ∃ x, x ∈ train_dicts ∧ (field, CStr s) ∈ x) ∧
    (∀ field s j, names !! j = Some (field +:+ "=" +:+ s) →
       dict_entries vocab [(field, CStr s)] = [(j, 1%float)]) ∧
    (∀ X' dv' X_train',
       (∀ f, f ∈ observed X' ↔ f ∈ observed train_dicts) →
       dv_fit_transform DV_unfitted X' = Ok (dv', X_train') →
       dv' = DV_fitted names vocab) ∧
    dv_transform (DV_fitted names vocab) val_dicts = Ok (DV_fitted names vocab, X_val) ∧
    (∃ y_pred, lr_predict lr X_val = Ok y_pred) ∧
    st_fs st' !! out_path = Some (pickle_dump (DV_fitted names vocab, Some lr)).1 ∧
    (∀ x1 fv x2,
       (∀ f, feature_name fv = Some f → f ∉ observed train_dicts) →
       dict_entries vocab (x1 ++ fv :: x2) = dict_entries vocab (x1 ++ x2) ∧
       dense_row (length names) (sort_indices (dict_entries vocab [fv]))
       = replicate (length names) 0%float) ∧
    (∀ field s x1 x2, field ∈ categorical →
       (∀ x, x ∈ train_dicts → (field, CStr s) ∉ x) →
       dict_entries vocab (x1 ++ (field, CStr s) :: x2) = dict_entries vocab (x1 ++ x2) ∧
       dense_row (length names) (sort_indices (dict_entries vocab [(field, CStr s)]))
       = replicate (length names) 0%float).
Proof.
  intros Hrun.
  destruct (train_ok_inv _ _ _ _ _ _ Hrun)
    as (df_train & st1 & df_val & st2 & pipeline & Hr1 & Hr2 & Hfit & _ & _ & Hfs & _).
  destruct (fit_and_score_inv _ _ _ _ Hfit)
    as (sub_train & sub_val & y_train & y_val & fitted & y_pred
        & Hst & Hsv & Hyt & Hyv & Hpf & Hpp & Hmse).
  destruct (pipeline_fit_inv _ _ _ Hpf) as (dv & X_train & lr & Hdv & Hlr & ->).
  destruct (dv_fit_transform_fitted _ _ _ _ Hdv) as (names & vocab & -> & Hsorted & Hv & Hin).
  destruct (pipeline_predict_inv _ _ _ _ _ Hpp) as (dv' & X_val & Hdv' & Hpred & ->).
  destruct (dv_transform_fitted _ _ _ _ _ Hdv') as [-> ->].
  rewrite (is_vocabulary_size _ _ Hv) in *.
  assert (∀ field s, field ∈ categorical →
            (field +:+ "=" +:+ s) ∈ names
            ↔ ∃ x, x ∈ to_dict_records sub_train ∧ (field, CStr s) ∈ x) as Hcat.
  { intros field s Hfield. rewrite Hin.
    destruct (read_dataframe_ok_columns _ _ _ _ Hr1)
      as ((l1 & l2 & l & H1 & H2 & _) & Hsub & _).
    rewrite Hsub, H1, H2 in Hst.
    destruct (assoc_get "trip_distance" (df_columns df_train)) as [c|]; [|done].
    injection Hst as <-. by apply categorical_dimension. }
  assert (∀ x1 fv x2,
            (∀ f, feature_name fv = Some f → f ∉ observed (to_dict_records sub_train)) →
            dict_entries vocab (x1 ++ fv :: x2) = dict_entries vocab (x1 ++ x2) ∧
            dense_row (length names) (sort_indices (dict_entries vocab [fv]))
            = replicate (length names) 0%float) as Hunseen.
  { intros x1 fv x2 Hunseen.
    assert (dict_entries vocab [fv] = []) as Hnil.
    { apply (dict_entries_unseen vocab names); [done|].
      intros f Hf. rewrite Hin. by apply Hunseen. }
    split.
    - change (fv :: x2) with ([fv] ++ x2). by rewrite !dict_entries_app, Hnil.
    - rewrite Hnil. apply dense_row_nil. }
  exists df_train, st1, df_val, st2, sub_train, sub_val, names, vocab, lr.
  do 4 (split; [done|]). cbv zeta.
  split; [by exists X_train, y_train|]. do 4 (split; [done|]).
  split.
  { intros field s j Hj. unfold dict_entries, feature_name, feature_value. csimpl.
    apply Hv in Hj. by rewrite Hj. }
  split.
  { intros X' dv2 X_train' Hsame Hdv2.
    destruct (dv_fit_transform_fitted _ _ _ _ Hdv2)
      as (names2 & vocab2 & -> & Hsorted2 & Hv2 & Hin2).
    destruct (vocabulary_unique names2 names vocab2 vocab) as [-> ->]; try done.
    intros f. by rewrite Hin2, Hin, Hsame. }
  split; [done|]. split; [by exists y_pred|].
  split; [by rewrite Hfs, lookup_insert_eq|].
  split; [done|].
  intros field s x1 x2 Hfield Hnone. apply Hunseen.
  intros f [= <-]. rewrite <-Hin, (Hcat field s Hfield).
  intros (x & Hx & Hpair). by apply (Hnone x).
Qed.

(** The features of the fitted vectorizer: one per pickup location and one
    per dropoff location of the cleaned training table, named
    [PULocationID=...] and [DOLocationID=...] after the text of the
    identifier, and the distance -- under its own name when the column is
    numeric.  The pipeline written to the output path holds exactly
    these. *)
Theorem train_feature_names
    (train_date val_date : date) (out_path : string) (st st' : state) (v : float) :
  train train_date val_date out_path st = (Ok v, st') →
  ∃ df_train l1 l2 names vocab lr,
    (read_dataframe (url_of (year train_date) (month train_date)) st).1 = Ok df_train ∧
    df_getitem df_train "PULocationID" = Ok (ColStr l1) ∧
    df_getitem df_train "DOLocationID" = Ok (ColStr l2) ∧
    st_fs st' !! out_path = Some (pickle_dump (DV_fitted names vocab, Some lr)).1 ∧
    ∀ f, f ∈ names →
         (∃ s, s ∈ l1 ∧ f = "PULocationID=" +:+ s) ∨
         (∃ s, s ∈ l2 ∧ f = "DOLocationID=" +:+ s) ∨
         f = "trip_distance" ∨
         (∃ s, f = "trip_distance=" +:+ s).
Proof.
  intros Hrun.
  destruct (train_ok_inv _ _ _ _ _ _ Hrun)
    as (df_train & st1 & df_val & st2 & pipeline & Hr1 & Hr2 & Hfit & _ & _ & Hfs & _).
  destruct (fit_and_score_inv _ _ _ _ Hfit)
    as (sub_train & sub_val & y_train & y_val & fitted & y_pred
        & Hst & _ & _ & _ & Hpf & Hpp & _).
  destruct (pipeline_fit_inv _ _ _ Hpf) as (dv & X_train & lr & Hdv & _ & ->).
  destruct (dv_fit_transform_fitted _ _ _ _ Hdv) as (names & vocab & -> & _ & _ & Hin).
  destruct (pipeline_predict_inv _ _ _ _ _ Hpp) as (dv' & X_val & Hdv' & _ & ->).
  destruct (dv_transform_fitted _ _ _ _ _ Hdv') as [-> _].
  destruct (read_dataframe_ok_columns _ _ _ _ Hr1)
    as ((l1 & l2 & l & H1 & H2 & _) & Hsub & _).
  exists df_train, l1, l2, names, vocab, lr.
  split; [by rewrite Hr1|]. unfold df_getitem. rewrite H1, H2.
  do 2 (split; [done|]). split; [by rewrite Hfs, lookup_insert_eq|].
  intros f Hf%Hin. rewrite Hsub, H1, H2 in Hst.
  destruct (assoc_get "trip_distance" (df_columns df_train)) as [c|]; [|done].
  injection Hst as <-. unfold observed in Hf.
  apply list_elem_of_omap in Hf as ([k d] & Hkd & Hname).
  apply elem_of_concat in Hkd as (x & Hx & Hkd).
  apply feature_dicts_shape in Hx as (s1 & s2 & d' & -> & Hs1 & Hs2 & _).
  unfold feature_name in Hname. simpl in Hname.
  apply elem_of_cons in Hkd as [[= -> ->] | Hkd].
  { injection Hname as <-. left. by exists s1. }
  apply elem_of_cons in Hkd as [[= -> ->] | Hkd].
  { injection Hname as <-. right. left. by exists s2. }
  apply list_elem_of_singleton in Hkd as [= -> ->].
  destruct d' as [z|x|s|t|t]; simplify_eq/=; eauto.
Qed.

(** A row with a missing time has a missing difference, a NaN duration,
    and fails both comparisons of the filter. *)
Lemma filter_mask_drops_missing (la lb ld : list Z) :
  sub_ticks_list la lb = Ok ld →
  let mask := in_range <$> ((λ d, PrimFloat.div (total_seconds d) 60) <$> ld) in
  (iNaT ∉ filter_mask mask la) ∧ (iNaT ∉ filter_mask mask lb).
Proof.
  unfold sub_ticks_list. revert lb ld.
  induction la as [|a la IH]; intros [|b lb] ld; cbn [zip zip_with result_mapM];
    try (intros [= <-]; simpl; split; apply not_elem_of_nil).
  unfold sub_ticks at 1. cbn [fst snd].
  destruct (decide (a = iNaT ∨ b = iNaT)) as [Hnat|Hnat].
  - cbn [result_bind]. destruct (result_mapM _ (zip la lb)) as [ld'|] eqn:Hld';
      cbn [result_bind]; [|done].
    intros [= <-]. csimpl. by apply IH.
  - destruct (in_int64 (a - b)); cbn [result_bind]; [|done].
    destruct (result_mapM _ (zip la lb)) as [ld'|] eqn:Hld'; cbn [result_bind]; [|done].
    intros [= <-]. csimpl. destruct (IH lb ld' Hld') as [IHa IHb].
    destruct (in_range _); [|done].
    rewrite !not_elem_of_cons. intuition congruence.
Qed.

(** No row with a missing pickup or dropoff time is kept: the two time
    columns of a table the loader returns hold no NaT. *)
Theorem read_dataframe_drops_missing_times
    (filename : string) (out : DataFrame) (st st' : state) :
  read_dataframe filename st = (Ok out, st') →
  ∃ (ctor : list Z → column) (dropoffs pickups : list Z),
    (ctor = ColTime ∨ ctor = ColDelta) ∧
    df_getitem out "lpep_dropoff_datetime" = Ok (ctor dropoffs) ∧
    df_getitem out "lpep_pickup_datetime" = Ok (ctor pickups) ∧
    (iNaT ∉ dropoffs) ∧ (iNaT ∉ pickups).
Proof.
  intros Hrun.
  destruct (read_dataframe_ok_inv _ _ _ _ Hrun) as (df & _ & Hp & _).
  destruct (process_frame_inv _ _ Hp)
    as (ctor & la & lb & ld & c1 & c2 & Hctor & Ha & Hb & Hsub & _ & _ & ->).
  destruct (filter_mask_drops_missing _ _ _ Hsub) as [Hna Hnb].
  eexists ctor, _, _. split; [done|].
  unfold df_getitem. cbn [df_setitem df_columns df_filter].
  rewrite !assoc_get_set, !decide_False by done.
  rewrite !assoc_get_fmap, !assoc_get_set, !decide_False, Ha, Hb by done.
  destruct Hctor as [-> | ->]; simpl; done.
Qed.

End Script.

(** ** The loader is a function of its source *)

(** C8.  The table the loader returns depends on the world only through
    what the source holds at the location: two calls that find the same
    content there end in the same result -- the same rows, in the same
    order, with the same values, or the same failure -- whatever was
    logged, requested or written before. *)
Theorem read_dataframe_deterministic (pps : Z) (read1 read2 : string → result DataFrame)
    (py_repr : cell → string) (filename : string) (st1 st2 : state) :
  read1 filename = read2 filename →
  (read_dataframe pps read1 py_repr filename st1).1
  = (read_dataframe pps read2 py_repr filename st2).1.
Proof. intros Hsame. rewrite !read_dataframe_eq. simpl. by rewrite Hsame. Qed.

(** ** Examples *)

Example demo_read_dataframe :
  (read_dataframe demo_pps demo_read_parquet demo_repr demo_train_url demo_state).1
  = Ok demo_train_clean.
Proof. vm_compute. reflexivity. Qed.

Lemma demo_train_frame_wf : df_wf demo_train_frame.
Proof.
  split.
  - apply (bool_decide_unpack _). vm_compute. exact I.
  - apply (bool_decide_unpack _). vm_compute. exact I.
Defined.

Lemma read_dataframe_keeps_rows_in_range_witness :
  df_records demo_train_clean
  = clean_record demo_pps demo_repr
      <$> filter (λ r, Is_true (in_range (record_duration demo_pps r)))
                 (df_records demo_train_frame).
Proof.
  apply (read_dataframe_keeps_rows_in_range demo_pps demo_read_parquet demo_repr
           demo_train_url demo_train_frame demo_train_clean demo_state
           (read_dataframe demo_pps demo_read_parquet demo_repr demo_train_url
              demo_state).2).
  - reflexivity.
  - exact demo_train_frame_wf.
  - vm_compute. reflexivity.
Defined.

Lemma read_dataframe_preserves_other_columns_witness :
  (df_columns demo_train_clean).*1
  = ["lpep_pickup_datetime"; "lpep_dropoff_datetime"; "PULocationID"; "DOLocationID";
     "trip_distance"; "duration"].
Proof.
  destruct (read_dataframe_preserves_other_columns demo_pps demo_read_parquet demo_repr
              demo_train_url demo_train_frame demo_train_clean demo_state
              (read_dataframe demo_pps demo_read_parquet demo_repr demo_train_url
                 demo_state).2) as [Hnames _].
  - reflexivity.
  - exact demo_train_frame_wf.
  - vm_compute. reflexivity.
  - exact Hnames.
Defined.

Lemma read_dataframe_ids_are_text_witness :
  ∃ l, assoc_get "PULocationID" (df_columns demo_train_clean) = Some (ColStr l)
       ∧ length l = df_len demo_train_clean.
Proof.
  apply (read_dataframe_ids_are_text demo_pps demo_read_parquet demo_repr
           demo_train_url demo_train_frame demo_train_clean demo_state
           (read_dataframe demo_pps demo_read_parquet demo_repr demo_train_url
              demo_state).2 "PULocationID").
  - reflexivity.
  - exact demo_train_frame_wf.
  - vm_compute. reflexivity.
  - apply (bool_decide_unpack _). vm_compute. exact I.
Defined.

Lemma read_dataframe_logs_and_reraises_witness :
  read_dataframe demo_pps demo_read_parquet demo_repr "nowhere.parquet" demo_state
  = (Raise (Exn true "HTTPError" "HTTP Error 404: Not Found"),
     State [(INFO, "loading file: nowhere.parquet");
            (ERROR, "error reading: nowhere.parquet");
            (ERROR, "HTTP Error 404: Not Found")]
           ["nowhere.parquet"] ∅).
Proof.
  apply (read_dataframe_logs_and_reraises demo_pps demo_read_parquet demo_repr
           "nowhere.parquet" demo_state (Exn true "HTTPError" "HTTP Error 404: Not Found")).
  - reflexivity.
  - left. reflexivity.
Defined.

(** A source without the dropoff column: the failure of the column access
    is logged and raised in the same way. *)
Example demo_missing_column :
  read_dataframe demo_pps
    (λ _, Ok (Frame [0]%Z [("lpep_pickup_datetime", ColTime [0]%Z)]))
    demo_repr "a.parquet" demo_state
  = (Raise (AttributeError "'DataFrame' object has no attribute 'lpep_dropoff_datetime'"),
     State [(INFO, "loading file: a.parquet");
            (ERROR, "error reading: a.parquet");
            (ERROR, "'DataFrame' object has no attribute 'lpep_dropoff_datetime'")]
           ["a.parquet"] ∅).
Proof. vm_compute. reflexivity. Qed.

Lemma read_dataframe_deterministic_witness :
  (read_dataframe demo_pps demo_read_parquet demo_repr demo_train_url demo_state).1
  = (read_dataframe demo_pps (λ _, Ok demo_train_frame) demo_repr demo_train_url
       (State [(INFO, "earlier")] ["elsewhere"] ∅)).1.
Proof.
  apply (read_dataframe_deterministic demo_pps demo_read_parquet
           (λ _, Ok demo_train_frame) demo_repr demo_train_url).
  reflexivity.
Defined.

Lemma train_depends_on_year_and_month_witness :
  train demo_pps demo_read_parquet demo_repr float demo_lr_fit demo_lr_predict
    demo_open_error demo_pickle_dump (Date 2021 1 5) (Date 2021 2 7) "model.bin" demo_state
  = train demo_pps demo_read_parquet demo_repr float demo_lr_fit demo_lr_predict
      demo_open_error demo_pickle_dump (Date 2021 1 31) (Date 2021 2 28) "model.bin"
      demo_state.
Proof.
  apply (train_depends_on_year_and_month demo_pps demo_read_parquet demo_repr float
           demo_lr_fit demo_lr_predict demo_open_error demo_pickle_dump
           (Date 2021 1 5) (Date 2021 1 31) (Date 2021 2 7) (Date 2021 2 28));
    reflexivity.
Defined.

Example demo_train :
  let run := train demo_pps demo_read_parquet demo_repr float demo_lr_fit demo_lr_predict
               demo_open_error demo_pickle_dump (Date 2021 1 5) (Date 2021 2 7)
               "model.bin" demo_state in
  run.1 = Ok 0x1.081f05ef4d87cp+3%float
  ∧ st_reads run.2 = [demo_train_url; demo_val_url]
  ∧ st_fs run.2 !! "model.bin" = Some [Byte.x80].
Proof. vm_compute. done. Qed.


(** Durations are kept as fractions of a minute, and the two bounds are
    met exactly: at nanosecond resolution a trip of 90 seconds lasts 1.5
    minutes; trips of exactly 1 and exactly 60 minutes are in range; a
    nanosecond less than a minute, a nanosecond more than an hour, and a
    missing time are not. *)
Example demo_durations :
  let row dropoff := (0%Z, [("lpep_pickup_datetime", CTime 0);
                            ("lpep_dropoff_datetime", CTime dropoff)]) in
  record_duration demo_pps (row 90000000000%Z) = 1.5%float
  ∧ in_range (record_duration demo_pps (row 60000000000%Z)) = true
  ∧ in_range (record_duration demo_pps (row 3600000000000%Z)) = true
  ∧ in_range (record_duration demo_pps (row 59999999999%Z)) = false
  ∧ in_range (record_duration demo_pps (row 3600000000001%Z)) = false
  ∧ in_range (record_duration demo_pps (row iNaT)) = false.
Proof. vm_compute. done. Qed.

(** The grouping of the sum shows in its last bit: eight squares of which
    six are [2^-54] add up to [1 + 2^-52] in numpy's eight lanes, and to
    [1] from left to right. *)
Example demo_mean_squared_error_lanes :
  let y_true := [1; 0; 0x1p-27; 0x1p-27; 0x1p-27; 0x1p-27; 0x1p-27; 0x1p-27]%float in
  let squares := (λ a, a * a)%float <$> y_true in
  mean_squared_error (ColFloat y_true) (replicate 8 0%float) true
  = Ok 0x1.0000000000001p-3%float
  ∧ np_sum squares = 0x1.0000000000001p+0%float
  ∧ foldl PrimFloat.add 0%float squares = 1%float.
Proof. vm_compute. done. Qed.

(** A failed selection names the missing columns as pandas does; the text
    of a [KeyError] shows its argument in quotes. *)
Example demo_key_errors :
  exn_msg (KeyError "['trip_distance'] not in index")
  = String dquote ("['trip_distance'] not in index" +:+ String dquote EmptyString)
  ∧ df_getitem_list demo_no_distance_frame (categorical ++ numerical)
    = Raise (KeyError "['trip_distance'] not in index")
  ∧ df_getitem_list demo_no_distance_frame ["passenger_count"; "trip_distance"]
    = Raise (KeyError
        "None of [Index(['passenger_count', 'trip_distance'], dtype='object')] are in the [columns]")
  ∧ df_getitem demo_no_distance_frame "duration" = Raise (KeyError "duration")
  ∧ exn_msg (KeyError "duration") = "'duration'".
Proof. vm_compute. done. Qed.

(** The vectorizer on the example: five features from the two training
    trips; the validation trip with unseen locations keeps its distance
    alone. *)
Example demo_vectorizer :
  ∃ vocab X_train,
    dv_fit_transform DV_unfitted demo_train_dicts
    = Ok (DV_fitted demo_names vocab, X_train)
    ∧ (λ f, vocab !! f) <$> demo_names = [Some 0; Some 1; Some 2; Some 3; Some 4]
    ∧ csr_rows X_train
      = [[(0, 1%float); (3, 1%float); (4, 1.5%float)];
         [(1, 1%float); (2, 1%float); (4, 4%float)]]
    ∧ result_map snd (dv_transform (DV_fitted demo_names vocab) demo_val_dicts)
      = Ok (Csr (2, 5) [[(0, 1%float); (3, 1%float); (4, 1.5%float)]; [(4, 2%float)]]).
Proof.
  destruct (dv_fit_transform DV_unfitted demo_train_dicts) as [[[|names vocab] X_train]|]
    eqn:Hfit; try (by vm_compute in Hfit).
  exists vocab, X_train.
  assert (names = demo_names) as -> by (vm_compute in Hfit; by simplify_eq).
  split; [done|].
  assert (Ok (DV_fitted demo_names vocab, X_train)
          = dv_fit_transform DV_unfitted demo_train_dicts) as Heq by done.
  clear Hfit. vm_compute in Heq. injection Heq as -> ->. by vm_compute.
Qed.

(** On the example the location 7 is a pickup location of a training trip
    and has its dimension; the location 9 occurs in the validation month
    only, has none, and leaves the row of its trip with the distance
    alone. *)
Lemma train_vectorizer_fitted_on_training_only_witness :
  ∃ names vocab,
    Sorted String.le names ∧ is_vocabulary names vocab ∧
    ("PULocationID=7" ∈ names) ∧ ("PULocationID=9" ∉ names) ∧
    (∃ j, names !! j = Some "PULocationID=7" ∧
          dict_entries vocab [("PULocationID", CStr "7")] = [(j, 1%float)]) ∧
    dict_entries vocab
      [("PULocationID", CStr "9"); ("DOLocationID", CStr "9");
       ("trip_distance", CFloat 2)]
    = dict_entries vocab [("trip_distance", CFloat 2)].
Proof.
  destruct (train_vectorizer_fitted_on_training_only demo_pps demo_read_parquet demo_repr
              float demo_lr_fit demo_lr_predict demo_open_error demo_pickle_dump
              (Date 2021 1 5) (Date 2021 2 7) "model.bin" demo_state
              (train demo_pps demo_read_parquet demo_repr float demo_lr_fit
                 demo_lr_predict demo_open_error demo_pickle_dump
                 (Date 2021 1 5) (Date 2021 2 7) "model.bin" demo_state).2
              0x1.081f05ef4d87cp+3%float)
    as (df_train & st1 & df_val & st2 & sub_train & sub_val & names & vocab & lr
        & Hr1 & _ & Hst & _ & H).
  - vm_compute. reflexivity.
  - vm_compute in Hr1. injection Hr1 as <- <-.
    vm_compute in Hst. injection Hst as <-.
    cbv zeta in H.
    destruct H as (_ & Hsorted & Hv & _ & Hcat & Hone & _ & _ & _ & _ & _ & Hunseen).
    assert (∀ field s, (field, CStr s) ∈@{feature_dict}
                         [("PULocationID", CStr "7"); ("DOLocationID", CStr "5");
                          ("trip_distance", CFloat 1.5)] ∨
                       (field, CStr s) ∈@{feature_dict}
                         [("PULocationID", CStr "4"); ("DOLocationID", CStr "8");
                          ("trip_distance", CFloat 4)] →
                       (field, s) ∈ [("PULocationID", "7"); ("DOLocationID", "5");
                                     ("PULocationID", "4"); ("DOLocationID", "8")])
      as Hpairs.
    { intros field s. rewrite !elem_of_cons, !elem_of_nil.
      intros [[?|[?|[?|[]]]] | [?|[?|[?|[]]]]]; simplify_eq; auto 10. }
    assert (∀ field s x,
              x ∈ to_dict_records
                    (Frame [10; 13]%Z
                       [("PULocationID", ColStr ["7"; "4"]);
                        ("DOLocationID", ColStr ["5"; "8"]);
                        ("trip_distance", ColFloat [1.5; 4]%float)]) →
              (field, CStr s) ∈ x →
              (field, s) ∈ [("PULocationID", "7"); ("DOLocationID", "5");
                            ("PULocationID", "4"); ("DOLocationID", "8")])
      as Hseen.
    { intros field s x Hx Hpair. apply Hpairs.
      vm_compute in Hx. apply elem_of_cons in Hx as [-> | Hx]; [by left|].
      apply elem_of_cons in Hx as [-> | Hx]; [by right|].
      by apply elem_of_nil in Hx. }
    assert ("PULocationID=7" ∈ names) as H7.
    { apply (Hcat "PULocationID" "7"); [by left|].
      eexists. split; [left|left]. }
    apply list_elem_of_lookup in H7 as [j Hj].
    exists names, vocab. split; [exact Hsorted|]. split; [exact Hv|].
    split; [apply list_elem_of_lookup; by exists j|].
    split.
    { intros (x & Hx & Hpair)%(Hcat "PULocationID" "9"); [|by left].
      pose proof (Hseen _ _ _ Hx Hpair) as H9.
      rewrite !elem_of_cons, elem_of_nil in H9.
      destruct H9 as [?|[?|[?|[?|[]]]]]; discriminate. }
    split; [exists j; split; [exact Hj|exact (Hone "PULocationID" "7" j Hj)]|].
    assert (∀ field, field ∈ categorical →
              ∀ x, x ∈ to_dict_records
                         (Frame [10; 13]%Z
                            [("PULocationID", ColStr ["7"; "4"]);
                             ("DOLocationID", ColStr ["5"; "8"]);
                             ("trip_distance", ColFloat [1.5; 4]%float)]) →
              (field, CStr "9") ∉ x) as Hnine.
    { intros field _ x Hx Hpair. pose proof (Hseen _ _ _ Hx Hpair) as H9.
      rewrite !elem_of_cons, elem_of_nil in H9.
      destruct H9 as [?|[?|[?|[?|[]]]]]; discriminate. }
    destruct (Hunseen "PULocationID" "9" []
                [("DOLocationID", CStr "9"); ("trip_distance", CFloat 2)])
      as [Hpu _]; [by left|by apply Hnine; left|].
    destruct (Hunseen "DOLocationID" "9" [] [("trip_distance", CFloat 2)])
      as [Hdo _]; [by right; left|by apply Hnine; right; left|].
    exact (eq_trans Hpu Hdo).
Defined.


Lemma train_resolves_locations_witness :
  st_reads (train demo_pps demo_read_parquet demo_repr float demo_lr_fit demo_lr_predict
              demo_open_error demo_pickle_dump (Date 2021 1 5) (Date 2021 2 7)
              "model.bin" demo_state).2
  = ["https://d37ci6vzurychx.cloudfront.net/trip-data/green_tripdata_2021-01.parquet";
     "https://d37ci6vzurychx.cloudfront.net/trip-data/green_tripdata_2021-02.parquet"].
Proof.
  destruct (train_resolves_locations demo_pps demo_read_parquet demo_repr float
              demo_lr_fit demo_lr_predict demo_open_error demo_pickle_dump
              (Date 2021 1 5) (Date 2021 2 7) "model.bin" demo_state)
    as (_ & _ & _ & _ & Hreads).
  rewrite Hreads. vm_compute. reflexivity.
Defined.


(** ** Examples for the further properties *)

Lemma read_dataframe_success_effects_witness :
  df_len demo_train_clean = 2
  ∧ (read_dataframe demo_pps demo_read_parquet demo_repr demo_train_url demo_state).2
    = State [(INFO, "loading file: " +:+ demo_train_url);
             (INFO, demo_train_url +:+ " had 2 rows")]
            [demo_train_url] ∅.
Proof.
  apply (read_dataframe_success_effects demo_pps demo_read_parquet demo_repr
           demo_train_url demo_train_frame demo_train_clean demo_state
           (read_dataframe demo_pps demo_read_parquet demo_repr demo_train_url
              demo_state).2).
  - reflexivity.
  - exact demo_train_frame_wf.
  - vm_compute. reflexivity.
Defined.

Lemma read_dataframe_durations_in_range_witness :
  ∃ l, df_getitem demo_train_clean target = Ok (ColFloat l) ∧
       Forall (λ d, PrimFloat.leb 1 d = true ∧ PrimFloat.leb d 60 = true ∧
                    PrimFloat.is_finite d = true) l.
Proof.
  apply (read_dataframe_durations_in_range demo_pps demo_read_parquet demo_repr
           demo_train_url demo_train_clean demo_state
           (read_dataframe demo_pps demo_read_parquet demo_repr demo_train_url
              demo_state).2).
  vm_compute. reflexivity.
Defined.

Lemma read_dataframe_missing_time_column_witness :
  read_dataframe demo_pps
    (λ _, Ok (Frame [0]%Z [("lpep_dropoff_datetime", ColTime [0]%Z)]))
    demo_repr "a.parquet" demo_state
  = (Raise (AttributeError "'DataFrame' object has no attribute 'lpep_pickup_datetime'"),
     State [(INFO, "loading file: a.parquet");
            (ERROR, "error reading: a.parquet");
            (ERROR, "'DataFrame' object has no attribute 'lpep_pickup_datetime'")]
           ["a.parquet"] ∅).
Proof.
  apply (read_dataframe_missing_time_column demo_pps
           (λ _, Ok (Frame [0]%Z [("lpep_dropoff_datetime", ColTime [0]%Z)]))
           demo_repr "a.parquet"
           (Frame [0]%Z [("lpep_dropoff_datetime", ColTime [0]%Z)]) demo_state).
  - reflexivity.
  - right. reflexivity.
Defined.

Lemma read_dataframe_interrupt_not_logged_witness :
  read_dataframe demo_pps (λ _, Raise demo_interrupt) demo_repr "a.parquet" demo_state
  = (Raise demo_interrupt,
     State [(INFO, "loading file: a.parquet")] ["a.parquet"] ∅).
Proof.
  apply (read_dataframe_interrupt_not_logged demo_pps (λ _, Raise demo_interrupt)
           demo_repr "a.parquet" demo_state demo_interrupt).
  - reflexivity.
  - reflexivity.
Defined.

Lemma read_dataframe_missing_id_column_witness :
  ∃ e, exn_class e = "KeyError" ∧
       read_dataframe demo_pps (λ _, Ok demo_no_ids_frame) demo_repr "a.parquet"
         demo_state
       = (Raise e,
          State [(INFO, "loading file: a.parquet");
                 (ERROR, "error reading: a.parquet");
                 (ERROR, exn_msg e)]
                ["a.parquet"] ∅).
Proof.
  apply (read_dataframe_missing_id_column demo_pps (λ _, Ok demo_no_ids_frame)
           demo_repr "a.parquet" demo_no_ids_frame [90000000000]%Z [0]%Z demo_state).
  - reflexivity.
  - reflexivity.
  - reflexivity.
  - constructor; [|constructor]. right. split; vm_compute; [discriminate|reflexivity].
  - constructor; [|constructor]. right. split; vm_compute; [discriminate|reflexivity].
  - left. reflexivity.
Defined.

Lemma read_dataframe_rejects_other_dtypes_witness :
  ∃ e, exn_is_Exception e = true ∧
       read_dataframe demo_pps (λ _, Ok demo_text_times_frame) demo_repr "a.parquet"
         demo_state
       = (Raise e,
          State [(INFO, "loading file: a.parquet");
                 (ERROR, "error reading: a.parquet");
                 (ERROR, exn_msg e)]
                ["a.parquet"] ∅).
Proof.
  apply (read_dataframe_rejects_other_dtypes demo_pps (λ _, Ok demo_text_times_frame)
           demo_repr "a.parquet" demo_text_times_frame
           (ColStr ["2021-01-01 00:01:30"]) (ColTime [0]%Z) demo_state).
  - reflexivity.
  - reflexivity.
  - reflexivity.
  - intros la lb [H _]. discriminate H.
  - intros la lb [H _]. discriminate H.
Defined.

Lemma read_dataframe_keeps_frame_wf_witness : df_wf demo_train_clean.
Proof.
  apply (read_dataframe_keeps_frame_wf demo_pps demo_read_parquet demo_repr
           demo_train_url demo_train_frame demo_train_clean demo_state
           (read_dataframe demo_pps demo_read_parquet demo_repr demo_train_url
              demo_state).2).
  - reflexivity.
  - exact demo_train_frame_wf.
  - vm_compute. reflexivity.
Defined.


(** A run over the files of an earlier one: the old model is replaced by
    the new pickle, the other file is as it was. *)
Lemma train_success_effects_witness :
  let st := State [] [] {["model.bin" := [Byte.x00; Byte.x01]; "notes.txt" := [Byte.x41]]} in
  let run := train demo_pps demo_read_parquet demo_repr float demo_lr_fit demo_lr_predict
               demo_open_error demo_pickle_dump (Date 2021 1 5) (Date 2021 2 7)
               "model.bin" st in
  st_reads run.2 = [url_of 2021 1; url_of 2021 2]
  ∧ st_fs run.2 = {["model.bin" := [Byte.x80]; "notes.txt" := [Byte.x41]]}.
Proof.
  pose proof (train_success_effects demo_pps demo_read_parquet demo_repr float
                demo_lr_fit demo_lr_predict demo_open_error demo_pickle_dump
                (Date 2021 1 5) (Date 2021 2 7) "model.bin"
                (State [] [] {["model.bin" := [Byte.x00; Byte.x01];
                               "notes.txt" := [Byte.x41]]})
                (train demo_pps demo_read_parquet demo_repr float demo_lr_fit
                   demo_lr_predict demo_open_error demo_pickle_dump
                   (Date 2021 1 5) (Date 2021 2 7) "model.bin"
                   (State [] [] {["model.bin" := [Byte.x00; Byte.x01];
                                  "notes.txt" := [Byte.x41]]})).2
                0x1.081f05ef4d87cp+3%float) as H.
  cbv zeta in H.
  destruct H as (df_train & df_val & pipeline & _ & _ & _ & _ & Hreads & Hfs & _).
  - vm_compute. reflexivity.
  - cbv zeta. split; [exact Hreads|].
    rewrite Hfs. vm_compute. reflexivity.
Defined.

Lemma train_fails_on_empty_training_table_witness :
  let run := train demo_pps (demo_read_parquet_with demo_train_url demo_short_frame)
               demo_repr float demo_lr_fit demo_lr_predict demo_open_error
               demo_pickle_dump (Date 2021 1 5) (Date 2021 2 7) "model.bin" demo_state in
  run.1 = Raise (ValueError "Sample sequence X is empty.") ∧ st_fs run.2 = ∅.
Proof.
  destruct (train_fails_on_empty_training_table demo_pps
              (demo_read_parquet_with demo_train_url demo_short_frame)
              demo_repr float demo_lr_fit demo_lr_predict demo_open_error
              demo_pickle_dump (Date 2021 1 5) (Date 2021 2 7) "model.bin" demo_state
              (read_dataframe demo_pps
                 (demo_read_parquet_with demo_train_url demo_short_frame)
                 demo_repr demo_train_url demo_state).2
              (read_dataframe demo_pps
                 (demo_read_parquet_with demo_train_url demo_short_frame)
                 demo_repr demo_val_url
                 (read_dataframe demo_pps
                    (demo_read_parquet_with demo_train_url demo_short_frame)
                    demo_repr demo_train_url demo_state).2).2
              demo_short_clean
              (Frame [0; 1]%Z
                 [("lpep_pickup_datetime", ColTime [0; 0]%Z);
                  ("lpep_dropoff_datetime", ColTime [90000000000; 120000000000]%Z);
                  ("PULocationID", ColStr ["7"; "9"]);
                  ("DOLocationID", ColStr ["5"; "9"]);
                  ("trip_distance", ColFloat [1.5; 2]%float);
                  ("duration", ColFloat [1.5; 2]%float)]))
    as [Hrun Hfs].
  - vm_compute. reflexivity.
  - vm_compute. reflexivity.
  - eexists. reflexivity.
  - eexists. reflexivity.
  - reflexivity.
  - cbv zeta. rewrite Hrun. split; [reflexivity|exact Hfs].
Defined.

Lemma train_missing_distance_column_witness :
  let run := train demo_pps (demo_read_parquet_with demo_train_url demo_no_distance_frame)
               demo_repr float demo_lr_fit demo_lr_predict demo_open_error
               demo_pickle_dump (Date 2021 1 5) (Date 2021 2 7) "model.bin" demo_state in
  ∃ e, exn_class e = "KeyError"
       ∧ run.1 = Raise e
       ∧ st_reads run.2 = [url_of 2021 1; url_of 2021 2]
       ∧ st_fs run.2 = ∅.
Proof.
  destruct (train_missing_distance_column demo_pps
              (demo_read_parquet_with demo_train_url demo_no_distance_frame)
              demo_repr float demo_lr_fit demo_lr_predict demo_open_error
              demo_pickle_dump (Date 2021 1 5) (Date 2021 2 7) "model.bin" demo_state
              (read_dataframe demo_pps
                 (demo_read_parquet_with demo_train_url demo_no_distance_frame)
                 demo_repr demo_train_url demo_state).2
              (read_dataframe demo_pps
                 (demo_read_parquet_with demo_train_url demo_no_distance_frame)
                 demo_repr demo_val_url
                 (read_dataframe demo_pps
                    (demo_read_parquet_with demo_train_url demo_no_distance_frame)
                    demo_repr demo_train_url demo_state).2).2
              (Frame [0]%Z
                 [("lpep_pickup_datetime", ColTime [0]%Z);
                  ("lpep_dropoff_datetime", ColTime [90000000000]%Z);
                  ("PULocationID", ColStr ["7"]);
                  ("DOLocationID", ColStr ["5"]);
                  ("duration", ColFloat [1.5]%float)])
              (Frame [0; 1]%Z
                 [("lpep_pickup_datetime", ColTime [0; 0]%Z);
                  ("lpep_dropoff_datetime", ColTime [90000000000; 120000000000]%Z);
                  ("PULocationID", ColStr ["7"; "9"]);
                  ("DOLocationID", ColStr ["5"; "9"]);
                  ("trip_distance", ColFloat [1.5; 2]%float);
                  ("duration", ColFloat [1.5; 2]%float)]))
    as (e & He & Hrun & Hreads & Hfs).
  - vm_compute. reflexivity.
  - vm_compute. reflexivity.
  - left. reflexivity.
  - cbv zeta. exists e. rewrite Hrun. split; [exact He|]. split; [reflexivity|].
    split; [exact Hreads|exact Hfs].
Defined.


Lemma train_fails_on_empty_validation_table_witness :
  let run := train demo_pps (demo_read_parquet_with demo_val_url demo_short_frame)
               demo_repr float demo_lr_fit demo_lr_predict demo_open_error
               demo_pickle_dump (Date 2021 1 5) (Date 2021 2 7) "model.bin" demo_state in
  run.1 = Raise (ValueError "Sample sequence X is empty.") ∧ st_fs run.2 = ∅.
Proof.
  destruct (pipeline_fit float demo_lr_fit (make_pipeline float DV_unfitted None)
              (to_dict_records
                 (Frame [10; 13]%Z
                    [("PULocationID", ColStr ["7"; "4"]);
                     ("DOLocationID", ColStr ["5"; "8"]);
                     ("trip_distance", ColFloat [1.5; 4]%float)]))
              (ColFloat [1.5; 60]%float)) as [fitted|e] eqn:Hfit;
    [|by vm_compute in Hfit].
  destruct (train_fails_on_empty_validation_table demo_pps
              (demo_read_parquet_with demo_val_url demo_short_frame)
              demo_repr float demo_lr_fit demo_lr_predict demo_open_error
              demo_pickle_dump (Date 2021 1 5) (Date 2021 2 7) "model.bin" demo_state
              (read_dataframe demo_pps
                 (demo_read_parquet_with demo_val_url demo_short_frame)
                 demo_repr demo_train_url demo_state).2
              (read_dataframe demo_pps
                 (demo_read_parquet_with demo_val_url demo_short_frame)
                 demo_repr demo_val_url
                 (read_dataframe demo_pps
                    (demo_read_parquet_with demo_val_url demo_short_frame)
                    demo_repr demo_train_url demo_state).2).2
              demo_train_clean demo_short_clean
              (Frame [10; 13]%Z
                 [("PULocationID", ColStr ["7"; "4"]);
                  ("DOLocationID", ColStr ["5"; "8"]);
                  ("trip_distance", ColFloat [1.5; 4]%float)])
              (ColFloat [1.5; 60]%float) fitted)
    as [Hrun Hfs].
  - vm_compute. reflexivity.
  - vm_compute. reflexivity.
  - reflexivity.
  - reflexivity.
  - exact Hfit.
  - eexists. reflexivity.
  - reflexivity.
  - cbv zeta. rewrite Hrun. split; [reflexivity|exact Hfs].
Defined.

(** A pickler that fails over a model file of an earlier run: the old
    bytes are gone, the first byte of the new pickle is in their place. *)
Lemma train_write_failure_witness :
  let run := train demo_pps demo_read_parquet demo_repr float demo_lr_fit demo_lr_predict
               demo_open_error demo_pickle_fails (Date 2021 1 5) (Date 2021 2 7)
               "model.bin" (State [] [] {["model.bin" := [Byte.x00; Byte.x01]]}) in
  run.1 = Raise demo_pickling_error
  ∧ st_fs run.2 !! "model.bin" = Some [Byte.x80].
Proof.
  destruct (fit_and_score float demo_lr_fit demo_lr_predict demo_train_clean
              (Frame [0; 1]%Z
                 [("lpep_pickup_datetime", ColTime [0; 0]%Z);
                  ("lpep_dropoff_datetime", ColTime [90000000000; 120000000000]%Z);
                  ("PULocationID", ColStr ["7"; "9"]);
                  ("DOLocationID", ColStr ["5"; "9"]);
                  ("trip_distance", ColFloat [1.5; 2]%float);
                  ("duration", ColFloat [1.5; 2]%float)]))
    as [[pipeline v]|e] eqn:Hfit; [|by vm_compute in Hfit].
  destruct (train_write_failure demo_pps demo_read_parquet demo_repr float demo_lr_fit
              demo_lr_predict demo_open_error demo_pickle_fails
              (Date 2021 1 5) (Date 2021 2 7) "model.bin"
              (State [] [] {["model.bin" := [Byte.x00; Byte.x01]]})
              (read_dataframe demo_pps demo_read_parquet demo_repr demo_train_url
                 (State [] [] {["model.bin" := [Byte.x00; Byte.x01]]})).2
              (read_dataframe demo_pps demo_read_parquet demo_repr demo_val_url
                 (read_dataframe demo_pps demo_read_parquet demo_repr demo_train_url
                    (State [] [] {["model.bin" := [Byte.x00; Byte.x01]]})).2).2
              demo_train_clean
              (Frame [0; 1]%Z
                 [("lpep_pickup_datetime", ColTime [0; 0]%Z);
                  ("lpep_dropoff_datetime", ColTime [90000000000; 120000000000]%Z);
                  ("PULocationID", ColStr ["7"; "9"]);
                  ("DOLocationID", ColStr ["5"; "9"]);
                  ("trip_distance", ColFloat [1.5; 2]%float);
                  ("duration", ColFloat [1.5; 2]%float)])
              pipeline v demo_pickling_error)
    as (st' & Hrun & _ & Hfs).
  - vm_compute. reflexivity.
  - vm_compute. reflexivity.
  - exact Hfit.
  - right. split; reflexivity.
  - cbv zeta. rewrite Hrun. split; [reflexivity|].
    cbn [snd]. rewrite Hfs. vm_compute. reflexivity.
Defined.

Lemma train_feature_names_witness :
  ∃ df_train l1 l2 names vocab lr,
    (read_dataframe demo_pps demo_read_parquet demo_repr (url_of 2021 1) demo_state).1
    = Ok df_train ∧
    df_getitem df_train "PULocationID" = Ok (ColStr l1) ∧
    df_getitem df_train "DOLocationID" = Ok (ColStr l2) ∧
    st_fs (train demo_pps demo_read_parquet demo_repr float demo_lr_fit demo_lr_predict
             demo_open_error demo_pickle_dump (Date 2021 1 5) (Date 2021 2 7)
             "model.bin" demo_state).2 !! "model.bin"
    = Some (demo_pickle_dump (DV_fitted names vocab, Some lr)).1 ∧
    ∀ f, f ∈ names →
         (∃ s, s ∈ l1 ∧ f = "PULocationID=" +:+ s) ∨
         (∃ s, s ∈ l2 ∧ f = "DOLocationID=" +:+ s) ∨
         f = "trip_distance" ∨
         (∃ s, f = "trip_distance=" +:+ s).
Proof.
  apply (train_feature_names demo_pps demo_read_parquet demo_repr float demo_lr_fit
           demo_lr_predict demo_open_error demo_pickle_dump
           (Date 2021 1 5) (Date 2021 2 7) "model.bin" demo_state
           (train demo_pps demo_read_parquet demo_repr float demo_lr_fit
              demo_lr_predict demo_open_error demo_pickle_dump
              (Date 2021 1 5) (Date 2021 2 7) "model.bin" demo_state).2
           0x1.081f05ef4d87cp+3%float).
  vm_compute. reflexivity.
Defined.


(** The third trip of the training source has no pickup time; the cleaned
    table has none such. *)
Lemma read_dataframe_drops_missing_times_witness :
  ∃ (ctor : list Z → column) (dropoffs pickups : list Z),
    (ctor = ColTime ∨ ctor = ColDelta) ∧
    df_getitem demo_train_clean "lpep_dropoff_datetime" = Ok (ctor dropoffs) ∧
    df_getitem demo_train_clean "lpep_pickup_datetime" = Ok (ctor pickups) ∧
    (iNaT ∉ dropoffs) ∧ (iNaT ∉ pickups).
Proof.
  apply (read_dataframe_drops_missing_times demo_pps demo_read_parquet demo_repr
           demo_train_url demo_train_clean demo_state
           (read_dataframe demo_pps demo_read_parquet demo_repr demo_train_url
              demo_state).2).
  vm_compute. reflexivity.
Defined.
